(** * paper_reader: the collection store and the insight-extraction pipeline

    A shallow embedding of [src/paper_store/store.py], [src/models.py] and
    [src/insight_extractor/extractor.py], together with the parts of the
    Python runtime they rely on ([str] methods, the [json] module,
    [dataclasses.asdict], a directory of files), and the properties of the
    specification proved, or refuted, on that embedding.

    Conventions.
    - A Python [str] is a [list ascii]: the alphabet of the model is the 256
      code points of Latin-1, on which [str.lower] and [str.strip] are given
      exactly.
    - Python values are dynamically typed: a value decoded from JSON is a
      [json] term, and the fields of the dataclasses hold such values
      whatever their annotations say.
    - A call that may raise returns a [result]; [try ... except Exception] is
      a match on it. *)

From Stdlib Require Import Ascii String ZArith Lia Bool Arith List.
From Stdlib Require Import DecimalString.
Import ListNotations.

(* ================================================================== *)
(** * Python strings *)

Module PyStr.

Definition str := list ascii.

(** A string literal of the source. *)
Definition py (s : string) : str := list_ascii_of_string s.

Definition code (c : ascii) : nat := nat_of_ascii c.

(** The quotation mark and the line feed, which a literal cannot hold. *)
Definition dquote : ascii := ascii_of_nat 34.
Definition LF : ascii := ascii_of_nat 10.

Definition str_eqb (a b : str) : bool :=
  if list_eq_dec ascii_dec a b then true else false.

(** [c.isspace()] on the code points below 256. *)
Definition isspace (c : ascii) : bool :=
  let n := code c in
  ((9 <=? n) && (n <=? 13)) || ((28 <=? n) && (n <=? 32))
  || (n =? 133) || (n =? 160).

(** [c.lower()] on the code points below 256: A-Z, and the accented capitals
    U+00C0..U+00DE except the multiplication sign U+00D7. *)
Definition lower_char (c : ascii) : ascii :=
  let n := code c in
  if ((65 <=? n) && (n <=? 90))
     || ((192 <=? n) && (n <=? 222) && negb (n =? 215))
  then ascii_of_nat (n + 32) else c.

Definition lower (s : str) : str := map lower_char s.

Fixpoint lstrip (s : str) : str :=
  match s with
  | c :: r => if isspace c then lstrip r else s
  | [] => []
  end.

Definition rstrip (s : str) : str := rev (lstrip (rev s)).

Definition strip (s : str) : str := rstrip (lstrip s).

Fixpoint startswith (s pre : str) {struct pre} : bool :=
  match pre, s with
  | [], _ => true
  | p :: pre', c :: s' => Ascii.eqb p c && startswith s' pre'
  | _ :: _, [] => false
  end.

Definition endswith (s suf : str) : bool := startswith (rev s) (rev suf).

(** Leftmost occurrence of [sub] in [s], counted from [i]. *)
Fixpoint find_from (s sub : str) (i : nat) : option nat :=
  if startswith s sub then Some i
  else match s with
       | [] => None
       | _ :: r => find_from r sub (S i)
       end.

(** Python's normalisation of a slice bound against a length. *)
Definition clamp (len : nat) (i : Z) : nat :=
  if (i <? 0)%Z then Z.to_nat (Z.max 0 (i + Z.of_nat len))
  else Nat.min (Z.to_nat i) len.

(** [s.find(sub, start)] *)
Definition find (s sub : str) (start : Z) : Z :=
  let a := clamp (length s) start in
  if ((Z.of_nat (length s) <? start)%Z) then (-1)%Z
  else match find_from (skipn a s) sub a with
       | Some i => Z.of_nat i
       | None => (-1)%Z
       end.

(** [sub in s] *)
Definition contains (sub s : str) : bool :=
  match find_from s sub 0 with Some _ => true | None => false end.

(** [s[a:b]] *)
Definition slice (s : str) (a b : Z) : str :=
  let a' := clamp (length s) a in
  let b' := clamp (length s) b in
  firstn (b' - a') (skipn a' s).

(** [s.replace(old, new)] for a one-character [old]. *)
Definition replace (s : str) (old : ascii) (new : str) : str :=
  flat_map (fun c => if Ascii.eqb c old then new else [c]) s.

(** [s.split(sep)] for a one-character [sep]: never an empty list. *)
Fixpoint split (s : str) (sep : ascii) : list str :=
  match s with
  | [] => [[]]
  | c :: r =>
      if Ascii.eqb c sep then [] :: split r sep
      else match split r sep with
           | h :: t => (c :: h) :: t
           | [] => [[c]]
           end
  end.

(** The scan of [s.replace(old, new)] for a non-empty [old], from left to
    right over occurrences that do not overlap: [skip] characters of a
    replaced occurrence are still to be passed over. *)
Fixpoint replace_from (s old new : str) (skip : nat) : str :=
  match s with
  | [] => []
  | c :: r =>
      match skip with
      | S k => replace_from r old new k
      | 0 =>
          if startswith s old
          then new ++ replace_from r old new (length old - 1)
          else c :: replace_from r old new 0
      end
  end.

(** [s.replace(old, new)]; an empty [old] matches before every character
    and at the end. *)
Definition replace_str (s old new : str) : str :=
  match old with
  | [] => new ++ flat_map (fun c => c :: new) s
  | _ :: _ => replace_from s old new 0
  end.

End PyStr.
Import PyStr.

(* ================================================================== *)
(** * Exceptions *)

(** The exception classes the two modules meet.  A [ValueError] carries the
    literal text of its message; [ValueErrorFrom] is the [ValueError] raised
    inside an [except ... as e] clause with [e] interpolated in the message:
    it keeps the caught exception. *)
Inductive exn : Type :=
| JSONDecodeError
| KeyError (key : str)
| TypeError
| AttributeError
| FileNotFoundError
| ValueError (text : str)
| ValueErrorFrom (text : str) (cause : exn).

Inductive result (A : Type) : Type :=
| Ok (a : A)
| Raise (e : exn).
Arguments Ok {A} a.
Arguments Raise {A} e.

Definition bind {A B} (m : result A) (k : A -> result B) : result B :=
  match m with Ok a => k a | Raise e => Raise e end.

Notation "x <- m ;; k" := (bind m (fun x => k))
  (at level 61, m at next level, right associativity).

(* ================================================================== *)
(** * The [json] module *)

Module Json.

(** A decoded JSON document, which is also the universe of Python values of
    the model: [None], [bool], [int], [float], [str], [list], and [dict] with
    string keys in insertion order.  A float is kept as the lexeme it was
    read from; float arithmetic is not modelled. *)
#[local] Unset Elimination Schemes.
Inductive json : Type :=
| JNull
| JBool (b : bool)
| JInt (z : Z)
| JFloat (lexeme : str)
| JStr (s : str)
| JArr (items : list json)
| JObj (members : list (str * json)).
#[local] Set Elimination Schemes.

(** Induction on a document, through its items and members. *)
Section JsonInduction.
Variable P : json -> Prop.
Hypothesis Hnull : P JNull.
Hypothesis Hbool : forall b, P (JBool b).
Hypothesis Hint : forall z, P (JInt z).
Hypothesis Hfloat : forall lx, P (JFloat lx).
Hypothesis Hstr : forall s, P (JStr s).
Hypothesis Harr : forall l, Forall P l -> P (JArr l).
Hypothesis Hobj : forall d, Forall (fun kv => P (snd kv)) d -> P (JObj d).

Fixpoint json_induction (v : json) : P v :=
    match v with
    | JNull => Hnull
    | JBool b => Hbool b
    | JInt z => Hint z
    | JFloat lx => Hfloat lx
    | JStr s => Hstr s
    | JArr l =>
        Harr l ((fix items (l : list json) : Forall P l :=
                 match l with
                 | [] => Forall_nil P
                 | x :: xs => Forall_cons x (json_induction x) (items xs)
                 end) l)
    | JObj d =>
        Hobj d ((fix members (d : list (str * json))
                : Forall (fun kv => P (snd kv)) d :=
                 match d with
                 | [] => Forall_nil _
                 | kv :: xs =>
                     Forall_cons kv (json_induction (snd kv)) (members xs)
                 end) d)
    end.
End JsonInduction.

(** ** dict operations *)

Fixpoint dict_get (d : list (str * json)) (k : str) : option json :=
  match d with
  | [] => None
  | (k', v) :: d' => if str_eqb k' k then Some v else dict_get d' k
  end.

Definition dict_has (d : list (str * json)) (k : str) : bool :=
  match dict_get d k with Some _ => true | None => false end.

(** [d[k] = v]: an existing key keeps its place, a new one goes last. *)
Fixpoint dict_set (d : list (str * json)) (k : str) (v : json)
  : list (str * json) :=
  match d with
  | [] => [(k, v)]
  | (k', v') :: d' =>
      if str_eqb k' k then (k', v) :: d' else (k', v') :: dict_set d' k v
  end.

(** ** Lexical classes *)

Definition is_ws (c : ascii) : bool :=
  let n := code c in (n =? 32) || (n =? 9) || (n =? 10) || (n =? 13).

Fixpoint skip_ws (s : str) : str :=
  match s with
  | c :: r => if is_ws c then skip_ws r else s
  | [] => []
  end.

Definition is_digit (c : ascii) : bool :=
  let n := code c in (48 <=? n) && (n <=? 57).

Definition digit_val (c : ascii) : Z := Z.of_nat (code c - 48).

Definition hex_val (c : ascii) : option nat :=
  let n := code c in
  if (48 <=? n) && (n <=? 57) then Some (n - 48)
  else if (97 <=? n) && (n <=? 102) then Some (n - 87)
  else if (65 <=? n) && (n <=? 70) then Some (n - 55)
  else None.

Definition hex_digit (n : nat) : ascii :=
  nth n (py "0123456789abcdef") "0"%char.

(** The longest prefix of digits, and what follows it. *)
Fixpoint span_digits (s : str) : str * str :=
  match s with
  | c :: r =>
      if is_digit c then let (ds, rest) := span_digits r in (c :: ds, rest)
      else ([], s)
  | [] => ([], [])
  end.

Definition int_of_digits (ds : str) : Z :=
  fold_left (fun acc c => (10 * acc + digit_val c)%Z) ds 0%Z.

(** ** Decoding *)

(** The character an escape letter stands for. *)
Definition unescape (e : ascii) : option ascii :=
  let n := code e in
  if n =? 34 then Some e                          (* quotation mark *)
  else if n =? 92 then Some e                     (* backslash *)
  else if n =? 47 then Some e                     (* slash *)
  else if n =? 98 then Some (ascii_of_nat 8)      (* backspace *)
  else if n =? 102 then Some (ascii_of_nat 12)    (* form feed *)
  else if n =? 110 then Some (ascii_of_nat 10)    (* line feed *)
  else if n =? 114 then Some (ascii_of_nat 13)    (* carriage return *)
  else if n =? 116 then Some (ascii_of_nat 9)     (* tab *)
  else None.

(** The code point of a u-escape of four hexadecimal digits.  One above U+00FF has no image in the
    alphabet of the model and is refused. *)
Definition decode_uXXXX (h1 h2 h3 h4 : ascii) : option ascii :=
  match hex_val h1, hex_val h2, hex_val h3, hex_val h4 with
  | Some a, Some b, Some c, Some d =>
      if (a =? 0) && (b =? 0) then Some (ascii_of_nat (16 * c + d)) else None
  | _, _, _, _ => None
  end.

(** [scanstring] in strict mode, from just after the opening quote: the
    decoded string and what follows the closing quote. *)
Fixpoint scanstring (s : str) : option (str * str) :=
  match s with
  | [] => None
  | c :: r =>
      if code c =? 34 then Some ([], r)
      else if code c =? 92 then
        match r with
        | [] => None
        | e :: r1 =>
            if code e =? 117 then
              match r1 with
              | h1 :: h2 :: h3 :: h4 :: r2 =>
                  match decode_uXXXX h1 h2 h3 h4 with
                  | Some ch =>
                      match scanstring r2 with
                      | Some (t, rest) => Some (ch :: t, rest)
                      | None => None
                      end
                  | None => None
                  end
              | _ => None
              end
            else
              match unescape e with
              | Some ch =>
                  match scanstring r1 with
                  | Some (t, rest) => Some (ch :: t, rest)
                  | None => None
                  end
              | None => None
              end
        end
      else if code c <? 32 then None
      else
        match scanstring r with
        | Some (t, rest) => Some (c :: t, rest)
        | None => None
        end
  end.

(** [NUMBER_RE], matched at the head of [s]: an optional minus sign, then a
    zero or a non-zero digit followed by digits; then, optionally, a dot and
    one digit or more; then, optionally, e or E, an optional sign and one
    digit or more.  An integer lexeme gives a [JInt], one with a fraction or
    an exponent a [JFloat]. *)
Definition match_int (s : str) : option (str * str) :=
  let (sign, s1) :=
    match s with
    | c :: r => if code c =? 45 then ([c], r) else ([], s)
    | [] => ([], s)
    end in
  match s1 with
  | c :: r =>
      if code c =? 48 then Some (sign ++ [c], r)
      else if is_digit c then
        let (ds, rest) := span_digits r in Some (sign ++ c :: ds, rest)
      else None
  | [] => None
  end.

Definition match_frac (s : str) : str * str :=
  match s with
  | c :: r =>
      if code c =? 46 then
        match span_digits r with
        | ([], _) => ([], s)
        | (ds, rest) => (c :: ds, rest)
        end
      else ([], s)
  | [] => ([], s)
  end.

Definition match_exp (s : str) : str * str :=
  match s with
  | c :: r =>
      if (code c =? 101) || (code c =? 69) then
        let (sign, r1) :=
          match r with
          | g :: r' =>
              if (code g =? 45) || (code g =? 43) then ([g], r') else ([], r)
          | [] => ([], r)
          end in
        match span_digits r1 with
        | ([], _) => ([], s)
        | (ds, rest) => (c :: sign ++ ds, rest)
        end
      else ([], s)
  | [] => ([], s)
  end.

Definition int_of_lexeme (lx : str) : Z :=
  match lx with
  | c :: r => if code c =? 45 then (- int_of_digits r)%Z else int_of_digits lx
  | [] => 0%Z
  end.

Definition match_number (s : str) : option (json * str) :=
  match match_int s with
  | None => None
  | Some (i, r) =>
      let (f, r1) := match_frac r in
      let (e, r2) := match_exp r1 in
      match f, e with
      | [], [] => Some (JInt (int_of_lexeme i), r2)
      | _, _ => Some (JFloat (i ++ f ++ e), r2)
      end
  end.

(** Outcome of a scan: a value and the rest of the input, a syntax error, or
    the recursion budget exhausted. *)
Inductive pres : Type :=
| POk (v : json) (rest : str)
| PErr
| PFuel.

(** [scan_once], [JSONObject] and [JSONArray] of [json.decoder] and
    [json.scanner].  [scan_once n s] reads one value at the head of [s];
    [object_loop n s acc] reads the members of an object from just after the
    opening quote of a key; [array_loop n s acc] reads the items of an array
    from the first character of an item.  [n] bounds the depth of calls. *)
Fixpoint scan_once (n : nat) (s : str) {struct n} : pres :=
  match n with
  | 0 => PFuel
  | S n' =>
      match s with
      | [] => PErr
      | c :: r =>
          if code c =? 34 then
            match scanstring r with
            | Some (x, rest) => POk (JStr x) rest
            | None => PErr
            end
          else if code c =? 123 then
            match skip_ws r with
            | c1 :: r1 =>
                if code c1 =? 125 then POk (JObj []) r1
                else if code c1 =? 34 then object_loop n' r1 []
                else PErr
            | [] => PErr
            end
          else if code c =? 91 then
            match skip_ws r with
            | c1 :: r1 =>
                if code c1 =? 93 then POk (JArr []) r1
                else array_loop n' (c1 :: r1) []
            | [] => PErr
            end
          else if startswith s (py "null") then POk JNull (skipn 4 s)
          else if startswith s (py "true") then POk (JBool true) (skipn 4 s)
          else if startswith s (py "false") then POk (JBool false) (skipn 5 s)
          else
            match match_number s with
            | Some (v, rest) => POk v rest
            | None =>
                if startswith s (py "NaN")
                then POk (JFloat (py "NaN")) (skipn 3 s)
                else if startswith s (py "Infinity")
                then POk (JFloat (py "Infinity")) (skipn 8 s)
                else if startswith s (py "-Infinity")
                then POk (JFloat (py "-Infinity")) (skipn 9 s)
                else PErr
            end
      end
  end

with object_loop (n : nat) (s : str) (acc : list (str * json))
  {struct n} : pres :=
  match n with
  | 0 => PFuel
  | S n' =>
      match scanstring s with
      | None => PErr
      | Some (key, r) =>
          match skip_ws r with
          | c :: r1 =>
              if code c =? 58 then
                match scan_once n' (skip_ws r1) with
                | POk v r2 =>
                    match skip_ws r2 with
                    | c2 :: r3 =>
                        if code c2 =? 125
                        then POk (JObj (dict_set acc key v)) r3
                        else if code c2 =? 44 then
                          match skip_ws r3 with
                          | c3 :: r4 =>
                              if code c3 =? 34
                              then object_loop n' r4 (dict_set acc key v)
                              else PErr
                          | [] => PErr
                          end
                        else PErr
                    | [] => PErr
                    end
                | PErr => PErr
                | PFuel => PFuel
                end
              else PErr
          | [] => PErr
          end
      end
  end

with array_loop (n : nat) (s : str) (acc : list json) {struct n} : pres :=
  match n with
  | 0 => PFuel
  | S n' =>
      match scan_once n' s with
      | POk v r =>
          match skip_ws r with
          | c :: r1 =>
              if code c =? 93 then POk (JArr (acc ++ [v])) r1
              else if code c =? 44 then array_loop n' (skip_ws r1) (acc ++ [v])
              else PErr
          | [] => PErr
          end
      | PErr => PErr
      | PFuel => PFuel
      end
  end.

(** [json.loads(s)]: one value between optional white space, and nothing
    else.  The budget is twice the length of the input, which no scan
    exhausts (lemma [decode_within_budget]). *)
Definition decode (s : str) : pres :=
  let s0 := skip_ws s in scan_once (S (2 * length s0)) s0.

Definition loads (s : str) : result json :=
  match decode s with
  | POk v rest =>
      match skip_ws rest with
      | [] => Ok v
      | _ :: _ => Raise JSONDecodeError
      end
  | PErr => Raise JSONDecodeError
  | PFuel => Raise JSONDecodeError
  end.

(** ** Encoding *)

(** [ESCAPE_DCT] of [json.encoder], as used with [ensure_ascii=False]: the
    quotation mark, the backslash and the control characters are escaped,
    every other character stands for itself. *)
Definition escape_char (c : ascii) : str :=
  let n := code c in
  if n =? 34 then py "\" ++ [c]
  else if n =? 92 then py "\\"
  else if n =? 8 then py "\b"
  else if n =? 12 then py "\f"
  else if n =? 10 then py "\n"
  else if n =? 13 then py "\r"
  else if n =? 9 then py "\t"
  else if n <? 32 then py "\u00" ++ [hex_digit (n / 16); hex_digit (n mod 16)]
  else [c].

Definition encode_basestring (s : str) : str :=
  dquote :: flat_map escape_char s ++ [dquote].

(** [repr] of an [int]. *)
Definition repr_int (z : Z) : str :=
  list_ascii_of_string (NilZero.string_of_int (Z.to_int z)).

(** A line break followed by the indentation of [level], two spaces a
    level ([indent=2]). *)
Definition newline_indent (level : nat) : str :=
  LF :: repeat " "%char (2 * level).

(** [sep.join(chunks)] *)
Fixpoint join (sep : str) (chunks : list str) : str :=
  match chunks with
  | [] => []
  | [c] => c
  | c :: cs => c ++ sep ++ join sep cs
  end.

(** The separator between two items: a comma and a line break. *)
Definition item_sep (level : nat) : str := py "," ++ newline_indent level.

(** [_iterencode] with [indent=2], hence the separators [","] and [": "],
    at nesting depth [level]. *)
Fixpoint iterencode (level : nat) (v : json) {struct v} : str :=
  match v with
  | JNull => py "null"
  | JBool true => py "true"
  | JBool false => py "false"
  | JInt z => repr_int z
  | JFloat lx => lx
  | JStr s => encode_basestring s
  | JArr [] => py "[]"
  | JArr items =>
      py "[" ++ newline_indent (S level)
      ++ join (item_sep (S level)) (map (iterencode (S level)) items)
      ++ newline_indent level ++ py "]"
  | JObj [] => py "{}"
  | JObj members =>
      py "{" ++ newline_indent (S level)
      ++ join (item_sep (S level))
              (map (fun kv => encode_basestring (fst kv) ++ py ": "
                              ++ iterencode (S level) (snd kv)) members)
      ++ newline_indent level ++ py "}"
  end.

(** [json.dumps(v, indent=2, ensure_ascii=False)] *)
Definition dumps (v : json) : str := iterencode 0 v.

(** One member of an object: whole, and from just after the opening quote
    of its key. *)
Definition encode_member (level : nat) (kv : str * json) : str :=
  encode_basestring (fst kv) ++ py ": " ++ iterencode level (snd kv).

Definition member_tail (level : nat) (k : str) (v : json) : str :=
  flat_map escape_char k ++ dquote :: py ": " ++ iterencode level v.

(** A character that opens a value: neither white space nor a closing
    bracket. *)
Definition opener (c : ascii) : bool :=
  negb (is_ws c) && negb (code c =? 93).

(** ** Truth value *)

(** A float lexeme denotes a float that is zero when its digits are all
    zero, or when the decimal it writes is at most 2^-1075 and so rounds to
    zero. *)
Definition float_is_zero (lx : str) : bool :=
  let unsigned :=
    match lx with c :: r => if code c =? 45 then r else lx | [] => lx end in
  let (ip, r1) := span_digits unsigned in
  let (fp, r2) :=
    match r1 with
    | c :: r => if code c =? 46 then span_digits r else ([], r1)
    | [] => ([], r1)
    end in
  let ex : Z :=
    match r2 with
    | _ :: g :: r =>
        if code g =? 45 then (- int_of_digits r)%Z
        else if code g =? 43 then int_of_digits r
        else int_of_digits (g :: r)
    | _ => 0%Z
    end in
  let m := int_of_digits (ip ++ fp) in
  let e10 := (ex - Z.of_nat (length fp))%Z in
  match ip with
  | [] => false
  | _ :: _ =>
      (m =? 0)%Z
      || ((e10 <? 0)%Z && (m * 2 ^ 1075 <=? 10 ^ (- e10))%Z)
  end.

(** [bool(v)] *)
Definition truthy (v : json) : bool :=
  match v with
  | JNull => false
  | JBool b => b
  | JInt z => negb (z =? 0)%Z
  | JFloat lx => negb (float_is_zero lx)
  | JStr s => match s with [] => false | _ :: _ => true end
  | JArr l => match l with [] => false | _ :: _ => true end
  | JObj d => match d with [] => false | _ :: _ => true end
  end.

End Json.
Import Json.

(* ================================================================== *)
(** * Dynamic operations on values *)

(** [k in v] for a string [k] *)
Definition py_in (k : str) (v : json) : result bool :=
  match v with
  | JObj d => Ok (dict_has d k)
  | JArr l =>
      Ok (existsb (fun x => match x with
                            | JStr s => str_eqb s k
                            | _ => false
                            end) l)
  | JStr s => Ok (contains k s)
  | _ => Raise TypeError
  end.

(** [v[k]] for a string [k] *)
Definition py_getitem (v : json) (k : str) : result json :=
  match v with
  | JObj d =>
      match dict_get d k with
      | Some x => Ok x
      | None => Raise (KeyError k)
      end
  | _ => Raise TypeError
  end.

(** What [a + b] is: a [str], a [list], a number, or a [TypeError]. *)
Inductive sum_kind : Type :=
| SumStr (s : str)
| SumList
| SumNumber.

Definition kind_of (v : json) : option sum_kind :=
  match v with
  | JStr s => Some (SumStr s)
  | JArr _ => Some SumList
  | JBool _ | JInt _ | JFloat _ => Some SumNumber
  | JNull | JObj _ => None
  end.

Definition py_add (a b : option sum_kind) : option sum_kind :=
  match a, b with
  | Some (SumStr x), Some (SumStr y) => Some (SumStr (x ++ y))
  | Some SumList, Some SumList => Some SumList
  | Some SumNumber, Some SumNumber => Some SumNumber
  | _, _ => None
  end.

(** [(a + b + c).lower()] *)
Definition add3_lower (a b c : json) : result str :=
  match py_add (py_add (kind_of a) (kind_of b)) (kind_of c) with
  | Some (SumStr s) => Ok (lower s)
  | Some _ => Raise AttributeError
  | None => Raise TypeError
  end.

(** [v.lower()] *)
Definition py_lower (v : json) : result str :=
  match v with
  | JStr s => Ok (lower s)
  | _ => Raise AttributeError
  end.

(** [v.append(x)]: only a list has the method. *)
Definition py_append (v x : json) : result json :=
  match v with
  | JArr l => Ok (JArr (l ++ [x]))
  | _ => Raise AttributeError
  end.

(** The list without its first item equal to the string [x]. *)
Fixpoint remove_first (l : list json) (x : str) : list json :=
  match l with
  | [] => []
  | JStr s :: r => if str_eqb s x then r else JStr s :: remove_first r x
  | y :: r => y :: remove_first r x
  end.

(** [v.remove(x)] for a string [x]: only a list has the method, and it
    raises when no item equals [x]. *)
Definition py_remove (v : json) (x : str) : result json :=
  match v with
  | JArr l =>
      if existsb (fun y => match y with
                           | JStr s => str_eqb s x
                           | _ => false
                           end) l
      then Ok (JArr (remove_first l x))
      else Raise (ValueError (py "list.remove(x): x not in list"))
  | _ => Raise AttributeError
  end.

(* ================================================================== *)
(** * models.py *)

Module Models.

(** [PaperInsights].  The annotations are not enforced: a field holds
    whatever value it was given. *)
Record PaperInsights : Type := mkPaperInsights {
  problem : json;
  method : json;
  key_results : json;
  contributions : json;
  related_work : json;
  future_directions : json;
  classification : json
}.

(** What the [insights] attribute of a [Paper] holds: a [PaperInsights]
    instance, or a plain value. *)
Inductive insights_attr : Type :=
| Instance (i : PaperInsights)
| Plain (v : json).

(** [Paper] *)
Record Paper : Type := mkPaper {
  id : json;
  title : json;
  authors : json;
  url : json;
  pdf_path : json;
  added_date : json;
  interests : json;
  insights : insights_attr;
  status : json;
  notes : json
}.

Definition insights_fields : list str :=
  [py "problem"; py "method"; py "key_results"; py "contributions";
   py "related_work"; py "future_directions"; py "classification"].

Definition paper_fields : list str :=
  [py "id"; py "title"; py "authors"; py "url"; py "pdf_path";
   py "added_date"; py "interests"; py "insights"; py "status"; py "notes"].

Definition known (fields : list str) (d : list (str * json)) : bool :=
  forallb (fun kv => existsb (str_eqb (fst kv)) fields) d.

(** [PaperInsights] called with the items of [v] as keyword arguments: [v]
    has to be a mapping whose keys are exactly the seven fields. *)
Definition PaperInsights_kwargs (v : json) : result PaperInsights :=
  match v with
  | JObj d =>
      if known insights_fields d then
        match dict_get d (py "problem"), dict_get d (py "method"),
              dict_get d (py "key_results"), dict_get d (py "contributions"),
              dict_get d (py "related_work"),
              dict_get d (py "future_directions"),
              dict_get d (py "classification") with
        | Some a, Some b, Some c, Some e, Some f, Some g, Some h =>
            Ok (mkPaperInsights a b c e f g h)
        | _, _, _, _, _, _, _ => Raise TypeError
        end
      else Raise TypeError
  | _ => Raise TypeError
  end.

(** [Paper] called with the items of [data] as keyword arguments, the item
    of [insights] being [ins] when the caller has replaced it by an
    instance: the keys of [data] have to be fields, the nine fields without
    a default have to be there, [notes] defaults to the empty string. *)
Definition Paper_kwargs (data : json) (ins : option PaperInsights)
  : result Paper :=
  match data with
  | JObj d =>
      if known paper_fields d then
        match dict_get d (py "id"), dict_get d (py "title"),
              dict_get d (py "authors"), dict_get d (py "url"),
              dict_get d (py "pdf_path"), dict_get d (py "added_date"),
              dict_get d (py "interests"), dict_get d (py "insights"),
              dict_get d (py "status") with
        | Some a, Some b, Some c, Some e, Some f, Some g, Some h, Some i,
          Some j =>
            Ok (mkPaper a b c e f g h
                  (match ins with Some x => Instance x | None => Plain i end)
                  j
                  (match dict_get d (py "notes") with
                   | Some n => n
                   | None => JStr []
                   end))
        | _, _, _, _, _, _, _, _, _ => Raise TypeError
        end
      else Raise TypeError
  | _ => Raise TypeError
  end.

Definition asdict_insights (i : PaperInsights) : json :=
  JObj [(py "problem", problem i); (py "method", method i);
        (py "key_results", key_results i);
        (py "contributions", contributions i);
        (py "related_work", related_work i);
        (py "future_directions", future_directions i);
        (py "classification", classification i)].

(** [dataclasses.asdict(paper)] *)
Definition asdict (p : Paper) : json :=
  JObj [(py "id", id p); (py "title", title p); (py "authors", authors p);
        (py "url", url p); (py "pdf_path", pdf_path p);
        (py "added_date", added_date p); (py "interests", interests p);
        (py "insights",
         match insights p with
         | Instance i => asdict_insights i
         | Plain v => v
         end);
        (py "status", status p); (py "notes", notes p)].

(** [ResearchInterests]; [arxiv_categories] defaults to an empty list. *)
Record ResearchInterests : Type := mkResearchInterests {
  areas : json;
  topics : json;
  arxiv_categories : json
}.

Definition interests_fields : list str :=
  [py "areas"; py "topics"; py "arxiv_categories"].

(** [ResearchInterests] called with the items of [data] as keyword
    arguments. *)
Definition ResearchInterests_kwargs (data : json) : result ResearchInterests :=
  match data with
  | JObj d =>
      if known interests_fields d then
        match dict_get d (py "areas"), dict_get d (py "topics") with
        | Some a, Some t =>
            Ok (mkResearchInterests a t
                  (match dict_get d (py "arxiv_categories") with
                   | Some c => c
                   | None => JArr []
                   end))
        | _, _ => Raise TypeError
        end
      else Raise TypeError
  | _ => Raise TypeError
  end.

Definition asdict_interests (i : ResearchInterests) : json :=
  JObj [(py "areas", areas i); (py "topics", topics i);
        (py "arxiv_categories", arxiv_categories i)].

End Models.
Import Models.

(* ================================================================== *)
(** * insight_extractor/extractor.py *)

Module InsightExtractor.

(** A literal of the prompt, in which the apostrophe stands for the
    quotation mark (the template has no apostrophe of its own). *)
Definition tpl (s : string) : str :=
  map (fun c => if code c =? 39 then dquote else c) (py s).

Definition lines (l : list string) : str := join [LF] (map tpl l).

Definition max_text_length : Z := 8000.

Definition truncation_marker : str :=
  [LF; LF] ++ py "[... text truncated ...]".

Definition prompt_head : str :=
  lines ["Extract key insights from this research paper.";
         "";
         "Paper Title: "]%string.

Definition prompt_mid : str :=
  lines [""; ""; "Paper Text:"; ""]%string.

Definition prompt_tail : str :=
  lines [""; "";
   "Please analyze this paper and extract the following information:";
   "";
   "1. PROBLEM: What problem or research question does this paper address? (2-3 sentences)";
   "2. METHOD: What approach or method does the paper use? (2-3 sentences)";
   "3. KEY RESULTS: What are the main results or findings? (2-3 sentences)";
   "4. CONTRIBUTIONS: What are the key contributions? (bullet points)";
   "5. RELATED WORK: What related work is referenced? (list 3-5 key papers/areas)";
   "6. FUTURE DIRECTIONS: What future research directions are mentioned? (bullet points)";
   "7. CLASSIFICATION: Is this foundational (introduces new concepts/methods) or incremental (improves existing work)?";
   "";
   "Format your response as JSON:";
   "{";
   "  'problem': '...',";
   "  'method': '...',";
   "  'key_results': '...',";
   "  'contributions': ['...', '...'],";
   "  'related_work': ['...', '...'],";
   "  'future_directions': ['...', '...'],";
   "  'classification': 'foundational' or 'incremental'";
   "}"]%string.

Definition truncated_text (text : str) : str :=
  let t := slice text 0 max_text_length in
  if (max_text_length <? Z.of_nat (length text))%Z
  then t ++ truncation_marker else t.

Definition _build_extraction_prompt (title text : str) : str :=
  prompt_head ++ title ++ prompt_mid ++ truncated_text text ++ prompt_tail.

Definition backtick : ascii := "`"%char.
Definition fence_json : str := py "```json".
Definition fence : str := py "```".

(** The first statement of the [try] block: the JSON text of a response. *)
Definition json_str (response : str) : str :=
  if contains fence_json response then
    let json_start := (find response fence_json 0 + 7)%Z in
    let json_end := find response fence json_start in
    strip (slice response json_start json_end)
  else if contains fence response then
    let json_start := (find response fence 0 + 3)%Z in
    let json_end := find response fence json_start in
    strip (slice response json_start json_end)
  else strip response.

(** The rest of the [try] block: decode the JSON text and read the seven
    keys, in the order of the keyword arguments. *)
Definition insights_of_text (json_text : str) : result PaperInsights :=
  data <- loads json_text ;;
  a <- py_getitem data (py "problem") ;;
  b <- py_getitem data (py "method") ;;
  c <- py_getitem data (py "key_results") ;;
  d <- py_getitem data (py "contributions") ;;
  e <- py_getitem data (py "related_work") ;;
  f <- py_getitem data (py "future_directions") ;;
  g <- py_getitem data (py "classification") ;;
  Ok (mkPaperInsights a b c d e f g).

(** The [try] block. *)
Definition parse_body (response : str) : result PaperInsights :=
  insights_of_text (json_str response).

Definition parse_failure (e : exn) : exn :=
  ValueErrorFrom (py "Failed to parse response: ") e.

Definition _parse_response (response : str) : result PaperInsights :=
  match parse_body response with
  | Ok insights => Ok insights
  | Raise e => Raise (parse_failure e)
  end.

Definition extraction_failure (e : exn) : exn :=
  ValueErrorFrom (py "Failed to extract insights: ") e.

(** [extract], the text-generation call being [generate]: the call and the
    parsing of its response are inside the [try] block. *)
Definition extract (generate : str -> result str) (paper_text paper_title : str)
  : result PaperInsights :=
  let prompt := _build_extraction_prompt paper_title paper_text in
  match (response <- generate prompt ;; _parse_response response) with
  | Ok insights => Ok insights
  | Raise e => Raise (extraction_failure e)
  end.

End InsightExtractor.

(* ================================================================== *)
(** * paper_store/store.py *)

Module PaperStore.

(** The directory [self.data_dir]: its files, by name, in the order in
    which the file system lists them.  A file that is created is listed
    last, one that is rewritten keeps its place. *)
Definition dir := list (str * str).

Fixpoint exists_ (d : dir) (path : str) : bool :=
  match d with
  | [] => false
  | (n, _) :: d' => str_eqb n path || exists_ d' path
  end.

Fixpoint read_text (d : dir) (path : str) : result str :=
  match d with
  | [] => Raise FileNotFoundError
  | (n, c) :: d' => if str_eqb n path then Ok c else read_text d' path
  end.

Fixpoint write_text (d : dir) (path content : str) : dir :=
  match d with
  | [] => [(path, content)]
  | (n, c) :: d' =>
      if str_eqb n path then (n, content) :: d'
      else (n, c) :: write_text d' path content
  end.

Fixpoint unlink (d : dir) (path : str) : dir :=
  match d with
  | [] => []
  | (n, c) :: d' => if str_eqb n path then d' else (n, c) :: unlink d' path
  end.

(** [self.data_dir.glob("*.json")] *)
Definition glob_json (d : dir) : list str :=
  filter (fun n => endswith n (py ".json")) (map fst d).

Definition _get_paper_path (paper_id : str) : str :=
  let safe_id := replace (replace paper_id ":"%char (py "_")) "/"%char (py "_") in
  safe_id ++ py ".json".

Definition _save_paper (paper : Paper) (path : str) (d : dir) : dir :=
  write_text d path (dumps (asdict paper)).

(** The [try] block of [_load_paper]. *)
Definition load_body (path : str) (d : dir) : result Paper :=
  text <- read_text d path ;;
  data <- loads text ;;
  has <- py_in (py "insights") data ;;
  if has then
    v <- py_getitem data (py "insights") ;;
    if truthy v then
      i <- PaperInsights_kwargs v ;;
      Paper_kwargs data (Some i)
    else Paper_kwargs data None
  else Paper_kwargs data None.

Definition _load_paper (path : str) (d : dir) : option Paper :=
  match load_body path d with
  | Ok paper => Some paper
  | Raise _ => None
  end.

(** [paper.id], passed to [_get_paper_path], has to be a [str]: no other
    value has a [replace] method. *)
Definition path_of (paper : Paper) : result str :=
  match id paper with
  | JStr i => Ok (_get_paper_path i)
  | _ => Raise AttributeError
  end.

Definition id_text (paper : Paper) : str :=
  match id paper with JStr i => i | _ => [] end.

Definition add (paper : Paper) (d : dir) : result unit * dir :=
  match path_of paper with
  | Raise e => (Raise e, d)
  | Ok path =>
      if exists_ d path
      then (Raise (ValueError (py "Paper " ++ id_text paper
                               ++ py " already exists")), d)
      else (Ok tt, _save_paper paper path d)
  end.

Definition get (paper_id : str) (d : dir) : option Paper :=
  let path := _get_paper_path paper_id in
  if negb (exists_ d path) then None
  else _load_paper path d.

Definition update (paper : Paper) (d : dir) : result unit * dir :=
  match path_of paper with
  | Raise e => (Raise e, d)
  | Ok path =>
      if negb (exists_ d path)
      then (Raise (ValueError (py "Paper " ++ id_text paper
                               ++ py " not found")), d)
      else (Ok tt, _save_paper paper path d)
  end.

Definition delete (paper_id : str) (d : dir) : result unit * dir :=
  let path := _get_paper_path paper_id in
  if negb (exists_ d path)
  then (Raise (ValueError (py "Paper " ++ paper_id ++ py " not found")), d)
  else (Ok tt, unlink d path).

Fixpoint list_loop (paths : list str) (d : dir) (papers : list Paper)
  : list Paper :=
  match paths with
  | [] => papers
  | path :: rest =>
      match _load_paper path d with
      | Some paper => list_loop rest d (papers ++ [paper])
      | None => list_loop rest d papers
      end
  end.

Definition list_all (d : dir) : list Paper := list_loop (glob_json d) d [].

(** The body of the [for] loop of [search], over the papers still to visit. *)
Fixpoint search_loop (query_lower : str) (papers results : list Paper)
  : result (list Paper) :=
  match papers with
  | [] => Ok results
  | paper :: rest =>
      t <- py_lower (title paper) ;;
      if contains query_lower t
      then search_loop query_lower rest (results ++ [paper])
      else
        match insights paper with
        | Instance i =>
            insights_text <-
              add3_lower (problem i) (method i) (key_results i) ;;
            if contains query_lower insights_text
            then search_loop query_lower rest (results ++ [paper])
            else search_loop query_lower rest results
        | Plain v =>
            if truthy v then Raise AttributeError
            else search_loop query_lower rest results
        end
  end.

Definition search (query : str) (d : dir) : result (list Paper) :=
  search_loop (lower query) (list_all d) [].

End PaperStore.

(* ================================================================== *)
(** * interest_manager/manager.py *)

Module InterestManager.

(** The file [self.interests_file]: absent, or its text. *)
Definition file := option str.

Definition load (f : file) : option ResearchInterests :=
  match f with
  | None => None
  | Some text =>
      match (data <- loads text ;; ResearchInterests_kwargs data) with
      | Ok interests => Some interests
      | Raise _ => None
      end
  end.

Definition save (interests : ResearchInterests) (f : file) : file :=
  Some (dumps (asdict_interests interests)).

(** [self.load() or ResearchInterests(areas=[], topics=[],
    arxiv_categories=[])] *)
Definition load_or_new (f : file) : ResearchInterests :=
  match load f with
  | Some interests => interests
  | None => mkResearchInterests (JArr []) (JArr []) (JArr [])
  end.

Definition add_area (area : str) (f : file) : result unit * file :=
  let interests := load_or_new f in
  match py_in area (areas interests) with
  | Raise e => (Raise e, f)
  | Ok true => (Ok tt, f)
  | Ok false =>
      match py_append (areas interests) (JStr area) with
      | Raise e => (Raise e, f)
      | Ok l =>
          (Ok tt,
           save (mkResearchInterests l (topics interests)
                   (arxiv_categories interests)) f)
      end
  end.

Definition add_topic (topic : str) (f : file) : result unit * file :=
  let interests := load_or_new f in
  match py_in topic (topics interests) with
  | Raise e => (Raise e, f)
  | Ok true => (Ok tt, f)
  | Ok false =>
      match py_append (topics interests) (JStr topic) with
      | Raise e => (Raise e, f)
      | Ok l =>
          (Ok tt,
           save (mkResearchInterests (areas interests) l
                   (arxiv_categories interests)) f)
      end
  end.

Definition add_category (category : str) (f : file) : result unit * file :=
  let interests := load_or_new f in
  match py_in category (arxiv_categories interests) with
  | Raise e => (Raise e, f)
  | Ok true => (Ok tt, f)
  | Ok false =>
      match py_append (arxiv_categories interests) (JStr category) with
      | Raise e => (Raise e, f)
      | Ok l =>
          (Ok tt,
           save (mkResearchInterests (areas interests) (topics interests) l)
             f)
      end
  end.

Definition remove_area (area : str) (f : file) : result unit * file :=
  match load f with
  | None => (Ok tt, f)
  | Some interests =>
      match py_in area (areas interests) with
      | Raise e => (Raise e, f)
      | Ok false => (Ok tt, f)
      | Ok true =>
          match py_remove (areas interests) area with
          | Raise e => (Raise e, f)
          | Ok l =>
              (Ok tt,
               save (mkResearchInterests l (topics interests)
                       (arxiv_categories interests)) f)
          end
      end
  end.

Definition remove_topic (topic : str) (f : file) : result unit * file :=
  match load f with
  | None => (Ok tt, f)
  | Some interests =>
      match py_in topic (topics interests) with
      | Raise e => (Raise e, f)
      | Ok false => (Ok tt, f)
      | Ok true =>
          match py_remove (topics interests) topic with
          | Raise e => (Raise e, f)
          | Ok l =>
              (Ok tt,
               save (mkResearchInterests (areas interests) l
                       (arxiv_categories interests)) f)
          end
      end
  end.

Definition remove_category (category : str) (f : file) : result unit * file :=
  match load f with
  | None => (Ok tt, f)
  | Some interests =>
      match py_in category (arxiv_categories interests) with
      | Raise e => (Raise e, f)
      | Ok false => (Ok tt, f)
      | Ok true =>
          match py_remove (arxiv_categories interests) category with
          | Raise e => (Raise e, f)
          | Ok l =>
              (Ok tt,
               save (mkResearchInterests (areas interests)
                       (topics interests) l) f)
          end
      end
  end.

End InterestManager.

(* ================================================================== *)
(** * paper_discovery/discoverer.py *)

Module PaperDiscoverer.

(** One clause of the query for a topic or an area: the term, quoted, in
    the title or in the abstract. *)
Definition term_query (term : str) : str :=
  py "(ti:" ++ dquote :: term ++ dquote :: py " OR abs:" ++ dquote :: term
  ++ dquote :: py ")".

(** [_build_query], on the three fields of the interests, lists of strings
    as they are annotated. *)
Definition _build_query (arxiv_categories topics areas : list str) : str :=
  let query_parts :=
    match arxiv_categories with
    | [] => []
    | _ :: _ =>
        [py "(" ++ join (py " OR ")
                     (map (fun cat => py "cat:" ++ cat) arxiv_categories)
         ++ py ")"]
    end in
  let query_parts :=
    match topics with
    | _ :: _ =>
        query_parts
        ++ [py "(" ++ join (py " OR ") (map term_query topics) ++ py ")"]
    | [] =>
        match areas with
        | _ :: _ =>
            query_parts
            ++ [py "(" ++ join (py " OR ") (map term_query areas) ++ py ")"]
        | [] => query_parts
        end
    end in
  match query_parts with
  | [] => py "all:*"
  | _ :: _ => join (py " AND ") query_parts
  end.

(** The id given to a candidate: [arxiv:] and the last segment of the
    entry id. *)
Definition candidate_id (entry_id : str) : str :=
  py "arxiv:" ++ last (split entry_id "/"%char) [].

(** [clean_id] of [get_by_id], and [arxiv_id] of [ingest_from_arxiv]. *)
Definition clean_id (arxiv_id : str) : str :=
  replace_str arxiv_id (py "arxiv:") [].

End PaperDiscoverer.

(* ================================================================== *)
(** * paper_ingestor/ingestor.py *)

Module PaperIngestor.

(** The loop over [reader.pages]: a page whose extraction raises ends it,
    a page without text is passed over. *)
Fixpoint collect (pages : list (result str)) (text_parts : list str)
  : result (list str) :=
  match pages with
  | [] => Ok text_parts
  | page :: rest =>
      text <- page ;;
      match text with
      | [] => collect rest text_parts
      | _ :: _ => collect rest (text_parts ++ [text])
      end
  end.

Definition extract_failure (e : exn) : exn :=
  ValueErrorFrom (py "Failed to extract text: ") e.

(** [_extract_text], on what [PdfReader] gives for the file: an exception,
    or its pages, each with the outcome of [extract_text]. *)
Definition _extract_text (reader : result (list (result str))) : result str :=
  match (pages <- reader ;;
         text_parts <- collect pages [] ;;
         let full_text := join [LF; LF] text_parts in
         match strip full_text with
         | [] => Raise (ValueError (py "No text extracted from PDF"))
         | _ :: _ => Ok full_text
         end) with
  | Ok full_text => Ok full_text
  | Raise e => Raise (extract_failure e)
  end.

(** [ingest_from_local], [exists_] telling whether the file is there. *)
Definition ingest_from_local (exists_ : bool)
           (reader : result (list (result str))) : result str :=
  if negb exists_ then Raise FileNotFoundError else _extract_text reader.

End PaperIngestor.

(* ================================================================== *)
(** * main.py *)

Module Cli.

Import PaperStore.

(** The list read from a prompt of [init]: the non-blank pieces between
    commas, stripped. *)
Definition comma_separated (input : str) : list str :=
  map strip
    (filter (fun a => match strip a with [] => false | _ :: _ => true end)
       (split input ","%char)).



(** The command [delete], without its messages; [confirm] is the answer to
    the confirmation. *)
Definition delete_command (paper_id : str) (confirm : bool) (d : dir)
  : result unit * dir :=
  match get paper_id d with
  | None => (Ok tt, d)
  | Some _ => if confirm then delete paper_id d else (Ok tt, d)
  end.

End Cli.

(* ================================================================== *)
(** * Notions the specification uses *)

Module Spec.

Import InsightExtractor PaperStore.

(** ** Paper Records as the annotations type them *)

Definition is_str (v : json) : bool :=
  match v with JStr _ => true | _ => false end.

Definition is_str_list (v : json) : bool :=
  match v with JArr l => forallb is_str l | _ => false end.




(** ** Values without numbers *)

Fixpoint distinct (ks : list str) : bool :=
  match ks with
  | [] => true
  | k :: ks' => negb (existsb (str_eqb k) ks') && distinct ks'
  end.

(** [None], booleans, strings, and the lists and dicts made of them, the
    keys of a dict being distinct. *)
Fixpoint plain (v : json) : bool :=
  match v with
  | JNull | JBool _ | JStr _ => true
  | JInt _ | JFloat _ => false
  | JArr l => forallb plain l
  | JObj d => distinct (map fst d) && forallb (fun kv => plain (snd kv)) d
  end.

(** Decoding the encoding of [v], at any depth and before any text, gives
    [v] back and leaves that text, whenever the budget covers the encoding. *)
Definition roundtrips (v : json) : Prop :=
  forall level rest n,
    length (iterencode level v) <= n ->
    scan_once n (iterencode level v ++ rest) = POk v rest.

(** ** The id scheme: a namespace, a colon, a numeric suffix *)

Definition is_colon (c : ascii) : bool := code c =? 58.
Definition is_slash (c : ascii) : bool := code c =? 47.

(** A namespace holds neither separator. *)
Definition namespace (ns : str) : bool :=
  forallb (fun c => negb (is_colon c || is_slash c)) ns.

(** A numeric suffix: digits and dots, as in 2301.12345. *)
Definition numeric_suffix (suf : str) : bool :=
  forallb (fun c => is_digit c || (code c =? 46)) suf.

Definition scheme_id (ns suf : str) : str := ns ++ ":"%char :: suf.

(** What the mapping does to one character. *)
Definition safe_char (c : ascii) : ascii :=
  if is_colon c || is_slash c then "_"%char else c.



(** ** Search *)

(** The record can be searched: its title is a string, and so are the
    three narrative fields of its insights when it has insights. *)
Definition searchable (p : Paper) : bool :=
  is_str (title p)
  && match insights p with
     | Instance i =>
         is_str (problem i) && is_str (method i) && is_str (key_results i)
     | Plain v => negb (truthy v)
     end.

Definition text_of (v : json) : str :=
  match v with JStr s => s | _ => [] end.

(** The query, already lowercased, occurs in the lowercased title, or in the
    lowercased concatenation of problem, method and key results. *)
Definition matches (query_lower : str) (p : Paper) : bool :=
  contains query_lower (lower (text_of (title p)))
  || match insights p with
     | Instance i =>
         contains query_lower
           (lower (text_of (problem i) ++ text_of (method i)
                   ++ text_of (key_results i)))
     | Plain _ => false
     end.

(** ** The three shapes of a response *)

Definition whitespace (w : str) : bool := forallb isspace w.

Definition fenced_json (w1 payload w2 : str) : str :=
  fence_json ++ w1 ++ payload ++ w2 ++ fence.

Definition fenced (w1 payload w2 : str) : str :=
  fence ++ w1 ++ payload ++ w2 ++ fence.

(** ** The prompt *)

(** What the template adds around the text: the prompt of an empty text. *)
Definition overhead (title : str) : nat :=
  length (_build_extraction_prompt title []).

(** ** Files that do not read as records *)

(** Decoded data that [Paper] refuses: not an object, an object with a key
    that is no field, or an object without one of the nine fields that have
    no default. *)
Definition refused (data : json) : Prop :=
  match data with
  | JObj m =>
      known paper_fields m = false
      \/ exists k, In k (removelast paper_fields) /\ dict_get m k = None
  | _ => True
  end.

(** ** Interests *)

Definition well_typed_interests (i : ResearchInterests) : bool :=
  is_str_list (areas i) && is_str_list (topics i)
  && is_str_list (arxiv_categories i).

Definition is_text (x : str) (v : json) : bool :=
  match v with JStr s => str_eqb s x | _ => false end.


(** [v] without the first [x], if any. *)
Definition without_item (v : json) (x : str) : json :=
  match v with
  | JArr l => JArr (remove_first l x)
  | _ => v
  end.

(** ** Responses, pages and entry ids *)

Definition backtick_free (s : str) : bool :=
  forallb (fun c => negb (Ascii.eqb backtick c)) s.

(** The first of the seven keys that [m] lacks. *)
Definition first_missing (m : list (str * json)) : option str :=
  List.find (fun k => negb (dict_has m k)) insights_fields.

Definition nonempty (s : str) : bool :=
  match s with [] => false | _ :: _ => true end.

(** The part of an entry id after its last slash. *)
Definition last_segment (entry_id : str) : str :=
  last (split entry_id "/"%char) [].

End Spec.

(* ================================================================== *)
(** * Sample data, from the tests *)

Module Samples.

Definition text (s : string) : json := JStr (py s).
Definition texts (l : list string) : json := JArr (map text l).

(** [sample_paper] of tests/test_paper_store.py *)
Definition sample_paper : Paper :=
  mkPaper (text "arxiv:2301.12345") (text "Test Paper")
    (texts ["Author One"; "Author Two"]%string)
    (text "https://arxiv.org/abs/2301.12345") JNull (text "2025-10-31")
    (texts ["deep learning"]%string)
    (Instance
       (mkPaperInsights (text "Test problem") (text "Test method")
          (text "Test results") (texts ["Contribution 1"]%string)
          (texts ["Related 1"]%string) (texts ["Future 1"]%string)
          (text "foundational")))
    (text "to-read") (text "").


(** A record whose title is a number, as a file edited by hand, or a
    [Paper] built without regard for the annotations, can hold. *)
Definition numbered_paper : Paper :=
  mkPaper (text "arxiv:0000.00001") (JInt 5) (texts []) (text "") JNull (text "")
    (texts []) (insights sample_paper) (text "to-read") (text "").

Definition numbered_dir : PaperStore.dir :=
  [(py "arxiv_0000.00001.json", dumps (asdict numbered_paper))].

(** A JSON object with the seven keys, written on one line.  The apostrophe
    stands for the quotation mark. *)
Definition payload (problem classification : string) : str :=
  InsightExtractor.tpl
    ("{'problem': '" ++ problem ++ "', 'method': 'm', 'key_results': 'k', "
     ++ "'contributions': ['c'], 'related_work': [], "
     ++ "'future_directions': [], 'classification': '" ++ classification
     ++ "'}")%string.

(** A response whose classification is a third value. *)
Definition third_value_response : str := payload "p" "speculative".

(** A payload one of whose strings holds a fence marker. *)
Definition backtick_payload : str := payload "see ```x``` here" "incremental".

End Samples.

(* ================================================================== *)
(** * Properties *)

Import InsightExtractor PaperStore Spec.

(** ** Strings *)

Section Strings.

Lemma str_eqb_refl (a : str) : str_eqb a a = true.
Proof. unfold str_eqb. destruct (list_eq_dec ascii_dec a a); congruence. Qed.

Lemma str_eqb_eq (a b : str) : str_eqb a b = true <-> a = b.
Proof.
  unfold str_eqb. destruct (list_eq_dec ascii_dec a b); split; congruence.
Qed.

Lemma str_eqb_neq (a b : str) : str_eqb a b = false <-> a <> b.
Proof.
  unfold str_eqb. destruct (list_eq_dec ascii_dec a b); split; congruence.
Qed.

Lemma code_inj (a b : ascii) : code a = code b -> a = b.
Proof.
  unfold code. intros H.
  rewrite <- (ascii_nat_embedding a), <- (ascii_nat_embedding b).
  now rewrite H.
Qed.

Lemma code_eqb (a : ascii) (n : nat) :
  (code a =? n) = true -> a = ascii_of_nat n.
Proof.
  intros H. apply Nat.eqb_eq in H. subst n. unfold code.
  now rewrite ascii_nat_embedding.
Qed.

Lemma replace_map (s : str) (old new : ascii) :
  replace s old [new] = map (fun c => if Ascii.eqb c old then new else c) s.
Proof.
  induction s as [|c s IH]; [reflexivity|].
  unfold replace in *. simpl. rewrite IH. now destruct (Ascii.eqb c old).
Qed.

Lemma startswith_app (m s : str) : startswith (m ++ s) m = true.
Proof.
  induction m as [|c m IH]; [now destruct s|].
  simpl. now rewrite Ascii.eqb_refl.
Qed.

Lemma find_from_shift (s sub : str) (i : nat) :
  find_from s sub i = option_map (fun k => k + i) (find_from s sub 0).
Proof.
  revert i. induction s as [|c s IH]; intros i; cbn [find_from].
  - now destruct sub.
  - destruct (startswith (c :: s) sub); [reflexivity|].
    rewrite (IH (S i)), (IH 1).
    destruct (find_from s sub 0); simpl; [f_equal; lia|reflexivity].
Qed.

Lemma contains_app (a m b : str) : contains m (a ++ m ++ b) = true.
Proof.
  unfold contains. generalize 0.
  induction a as [|c a IH]; intros i.
  - replace (find_from ([] ++ m ++ b) m i) with (Some i); [reflexivity|].
    simpl. pose proof (startswith_app m b) as H.
    destruct (m ++ b); cbn [find_from]; now rewrite H.
  - cbn [find_from app].
    destruct (startswith (c :: a ++ m ++ b) m); [reflexivity|apply IH].
Qed.

End Strings.

(** ** The mapping from ids to file names *)

Section Paths.

Lemma get_paper_path_map (i : str) :
  _get_paper_path i = map safe_char i ++ py ".json".
Proof.
  unfold _get_paper_path, py. simpl list_ascii_of_string.
  rewrite !replace_map, map_map. f_equal.
  apply map_ext. intros c. unfold safe_char, is_colon, is_slash.
  destruct (Ascii.eqb c ":") eqn:E1.
  - apply Ascii.eqb_eq in E1. now subst c.
  - destruct (Ascii.eqb c "/") eqn:E2.
    + apply Ascii.eqb_eq in E2. now subst c.
    + destruct (code c =? 58) eqn:C1.
      { apply code_eqb in C1. subst c. discriminate. }
      destruct (code c =? 47) eqn:C2; [|reflexivity].
      apply code_eqb in C2. subst c. discriminate.
Qed.

Lemma split_at_last (x : ascii) (a a' b b' : str) :
  ~ In x b -> ~ In x b' -> a ++ x :: b = a' ++ x :: b' -> a = a' /\ b = b'.
Proof.
  intros Hb Hb'. revert a'.
  induction a as [|c a IH]; intros [|c' a'] H; simpl in H.
  - injection H as ->. now split.
  - injection H as <- ->. exfalso. apply Hb. apply in_or_app. right. now left.
  - injection H as -> <-. exfalso. apply Hb'. apply in_or_app. right. now left.
  - injection H as -> H. destruct (IH _ H) as [-> ->]. now split.
Qed.

Lemma namespace_safe (ns : str) :
  namespace ns = true -> map safe_char ns = ns.
Proof.
  induction ns as [|c ns IH]; [reflexivity|]. simpl. intros H.
  apply andb_true_iff in H as [Hc H]. rewrite (IH H). f_equal.
  unfold safe_char. now destruct (is_colon c || is_slash c).
Qed.

Lemma numeric_safe (suf : str) :
  numeric_suffix suf = true ->
  map safe_char suf = suf /\ ~ In "_"%char suf.
Proof.
  induction suf as [|c suf IH]; [now split|]. simpl. intros H.
  apply andb_true_iff in H as [Hc H]. destruct (IH H) as [E N].
  assert (Hs : safe_char c = c /\ c <> "_"%char).
  { unfold safe_char, is_colon, is_slash, is_digit in *.
    destruct (code c =? 58) eqn:C1.
    { apply code_eqb in C1. subst c. discriminate. }
    destruct (code c =? 47) eqn:C2.
    { apply code_eqb in C2. subst c. discriminate. }
    split; [reflexivity|]. intros ->. discriminate. }
  destruct Hs as [Hs1 Hs2]. rewrite E, Hs1. split; [reflexivity|].
  intros [F|F]; [now apply Hs2|now apply N].
Qed.

Lemma scheme_id_path (ns suf : str) :
  namespace ns = true -> numeric_suffix suf = true ->
  _get_paper_path (scheme_id ns suf) = ns ++ "_"%char :: suf ++ py ".json".
Proof.
  intros Hn Hs. rewrite get_paper_path_map. unfold scheme_id.
  rewrite map_app. simpl. rewrite (namespace_safe _ Hn).
  destruct (numeric_safe _ Hs) as [-> _]. now rewrite <- app_assoc.
Qed.

End Paths.

(** C8.  The mapping from an id to a file name replaces each colon and each
    slash by an underscore and appends the suffix .json; it is a function of
    the id alone; and two distinct ids of the scheme (a namespace free of
    separators, a colon, a numeric suffix) are mapped to distinct names. *)
Theorem get_paper_path_injective_on_scheme :
  (forall i, _get_paper_path i = map safe_char i ++ py ".json")
  /\ (forall i j, i = j -> _get_paper_path i = _get_paper_path j)
  /\ (forall ns1 suf1 ns2 suf2,
        namespace ns1 = true -> numeric_suffix suf1 = true ->
        namespace ns2 = true -> numeric_suffix suf2 = true ->
        scheme_id ns1 suf1 <> scheme_id ns2 suf2 ->
        _get_paper_path (scheme_id ns1 suf1)
        <> _get_paper_path (scheme_id ns2 suf2)).
Proof.
  split; [exact get_paper_path_map|]. split; [now intros i j ->|].
  intros ns1 suf1 ns2 suf2 N1 S1 N2 S2 D E. apply D.
  rewrite !scheme_id_path in E by assumption.
  change (ns1 ++ "_"%char :: suf1 ++ py ".json")
    with (ns1 ++ ("_"%char :: suf1) ++ py ".json") in E.
  change (ns2 ++ "_"%char :: suf2 ++ py ".json")
    with (ns2 ++ ("_"%char :: suf2) ++ py ".json") in E.
  rewrite !app_assoc in E. apply app_inv_tail in E.
  apply split_at_last in E as [-> ->]; [reflexivity| |].
  - now destruct (numeric_safe _ S1).
  - now destruct (numeric_safe _ S2).
Qed.

Lemma get_paper_path_injective_on_scheme_witness :
  _get_paper_path (py "arxiv:2301.12345")
  <> _get_paper_path (py "arxiv:2301.67890").
Proof.
  apply (proj2 (proj2 get_paper_path_injective_on_scheme)
           (py "arxiv") (py "2301.12345") (py "arxiv") (py "2301.67890"));
    try reflexivity.
  discriminate.
Defined.

(** ** The JSON codec *)

Section Codec.

Lemma scanstring_escape_char (c : ascii) (t : str) :
  scanstring (escape_char c ++ t)
  = match scanstring t with
    | Some (u, rest) => Some (c :: u, rest)
    | None => None
    end.
Proof.
  destruct c as [[] [] [] [] [] [] [] []]; reflexivity.
Qed.

Lemma scanstring_roundtrip (s rest : str) :
  scanstring (flat_map escape_char s ++ dquote :: rest) = Some (s, rest).
Proof.
  induction s as [|c s IH]; [reflexivity|].
  simpl flat_map. rewrite <- app_assoc, scanstring_escape_char.
  now rewrite IH.
Qed.

Lemma join_cons (sep c : str) (cs : list str) :
  join sep (c :: cs) = c ++ flat_map (fun x => sep ++ x) cs.
Proof.
  revert c. induction cs as [|d cs IH]; intros c.
  - simpl. now rewrite app_nil_r.
  - change (join sep (c :: d :: cs)) with (c ++ sep ++ join sep (d :: cs)).
    rewrite IH. simpl. now rewrite <- app_assoc.
Qed.

Lemma skip_ws_spaces (k : nat) (s : str) :
  skip_ws (repeat " "%char k ++ s) = skip_ws s.
Proof. induction k as [|k IH]; [reflexivity|exact IH]. Qed.

Lemma skip_ws_newline_indent (level : nat) (s : str) :
  skip_ws (newline_indent level ++ s) = skip_ws s.
Proof. unfold newline_indent. simpl. apply skip_ws_spaces. Qed.

Lemma iterencode_head (level : nat) (v : json) :
  plain v = true ->
  exists c t, iterencode level v = c :: t /\ opener c = true.
Proof.
  destruct v as [|[]| | | |[|x xs]|[|m ms]]; simpl; intros H;
    try discriminate; try (eexists; eexists; split; reflexivity).
Qed.

Lemma skip_ws_opener (c : ascii) (t : str) :
  opener c = true -> skip_ws (c :: t) = c :: t.
Proof.
  unfold opener. intros H. apply andb_true_iff in H as [H _].
  simpl. now destruct (is_ws c).
Qed.

#[local] Arguments newline_indent : simpl never.
#[local] Arguments iterencode : simpl never.

Lemma array_loop_S (n : nat) (s : str) (acc : list json) :
  array_loop (S n) s acc
  = match scan_once n s with
    | POk v r =>
        match skip_ws r with
        | c :: r1 =>
            if code c =? 93 then POk (JArr (acc ++ [v])) r1
            else if code c =? 44 then array_loop n (skip_ws r1) (acc ++ [v])
            else PErr
        | [] => PErr
        end
    | PErr => PErr
    | PFuel => PFuel
    end.
Proof. reflexivity. Qed.

Lemma skip_ws_iterencode (level : nat) (v : json) (r : str) :
  plain v = true -> skip_ws (iterencode level v ++ r) = iterencode level v ++ r.
Proof.
  intros H. destruct (iterencode_head level v H) as (c & t & -> & Hc).
  now apply skip_ws_opener.
Qed.

Ltac lit := cbn [py list_ascii_of_string app map flat_map length].
Tactic Notation "lit" "in" hyp(H) :=
  cbn [py list_ascii_of_string app map flat_map length] in H.

Lemma item_sep_app (level : nat) (r : str) :
  item_sep level ++ r = ","%char :: newline_indent level ++ r.
Proof. reflexivity. Qed.

Lemma item_sep_length (level : nat) :
  length (item_sep level) = S (length (newline_indent level)).
Proof. reflexivity. Qed.

Lemma array_loop_close (n level : nat) (s r : str) (acc : list json) (v : json) :
  scan_once n s = POk v (newline_indent level ++ "]"%char :: r) ->
  array_loop (S n) s acc = POk (JArr (acc ++ [v])) r.
Proof.
  intros H. now rewrite array_loop_S, H, skip_ws_newline_indent.
Qed.

Lemma array_loop_next (n : nat) (s r : str) (acc : list json) (v : json) :
  scan_once n s = POk v (","%char :: r) ->
  array_loop (S n) s acc = array_loop n (skip_ws r) (acc ++ [v]).
Proof. intros H. now rewrite array_loop_S, H. Qed.

Lemma array_loop_roundtrip (level : nat) (rest : str) (xs : list json) :
  forall x acc n,
    roundtrips x -> Forall roundtrips xs -> forallb plain xs = true ->
    length (iterencode (S level) x)
    + length (flat_map (fun y => item_sep (S level) ++ y)
                (map (iterencode (S level)) xs)) < n ->
    array_loop n
      (iterencode (S level) x
       ++ flat_map (fun y => item_sep (S level) ++ y)
            (map (iterencode (S level)) xs)
       ++ newline_indent level ++ py "]" ++ rest) acc
    = POk (JArr (acc ++ x :: xs)) rest.
Proof.
  induction xs as [|y ys IH]; intros x acc n Hx Hxs Pxs Hn;
    (destruct n as [|n]; [lia|]).
  - lit. lit in Hn. apply array_loop_close with (level := level).
    apply Hx. lia.
  - cbn [forallb] in Pxs. apply andb_true_iff in Pxs as [Py Pys].
    inversion Hxs as [|? ? Hy Hys]; subst.
    lit. lit in Hn. rewrite !length_app in Hn.
    rewrite <- !app_assoc, item_sep_app.
    erewrite array_loop_next by (apply Hx; lia).
    rewrite skip_ws_newline_indent, skip_ws_iterencode by assumption.
    rewrite IH; try assumption;
      [|pose proof (item_sep_length (S level)); lia].
    now rewrite <- app_assoc.
Qed.

Lemma object_loop_S (n : nat) (s : str) (acc : list (str * json)) :
  object_loop (S n) s acc
  = match scanstring s with
    | None => PErr
    | Some (key, r) =>
        match skip_ws r with
        | c :: r1 =>
            if code c =? 58 then
              match scan_once n (skip_ws r1) with
              | POk v r2 =>
                  match skip_ws r2 with
                  | c2 :: r3 =>
                      if code c2 =? 125
                      then POk (JObj (dict_set acc key v)) r3
                      else if code c2 =? 44 then
                        match skip_ws r3 with
                        | c3 :: r4 =>
                            if code c3 =? 34
                            then object_loop n r4 (dict_set acc key v)
                            else PErr
                        | [] => PErr
                        end
                      else PErr
                  | [] => PErr
                  end
              | PErr => PErr
              | PFuel => PFuel
              end
            else PErr
        | [] => PErr
        end
    end.
Proof. reflexivity. Qed.

Lemma encode_member_tail (level : nat) (kv : str * json) :
  encode_member level kv = dquote :: member_tail level (fst kv) (snd kv).
Proof.
  unfold encode_member, member_tail, encode_basestring.
  cbn [app]. now rewrite <- app_assoc.
Qed.

Lemma object_loop_close (n level : nat) (k r : str) (v : json)
      (acc : list (str * json)) :
  plain v = true ->
  scan_once n (iterencode (S level) v ++ newline_indent level ++ "}"%char :: r)
  = POk v (newline_indent level ++ "}"%char :: r) ->
  object_loop (S n)
    (member_tail (S level) k v ++ newline_indent level ++ "}"%char :: r) acc
  = POk (JObj (dict_set acc k v)) r.
Proof.
  intros Pv H. rewrite object_loop_S. unfold member_tail.
  rewrite <- app_assoc. cbn [app]. rewrite scanstring_roundtrip.
  lit.
  change (skip_ws (":"%char :: ?x)) with (":"%char :: x).
  cbv iota beta.
  change (code ":"%char =? 58) with true. cbv iota.
  change (skip_ws (" "%char :: ?x)) with (skip_ws x).
  rewrite skip_ws_iterencode, H, skip_ws_newline_indent by assumption.
  reflexivity.
Qed.

Lemma object_loop_next (n level : nat) (k r : str) (v : json)
      (acc : list (str * json)) :
  plain v = true ->
  scan_once n (iterencode (S level) v
               ++ ","%char :: newline_indent (S level) ++ dquote :: r)
  = POk v (","%char :: newline_indent (S level) ++ dquote :: r) ->
  object_loop (S n)
    (member_tail (S level) k v
     ++ ","%char :: newline_indent (S level) ++ dquote :: r) acc
  = object_loop n r (dict_set acc k v).
Proof.
  intros Pv H. rewrite object_loop_S. unfold member_tail.
  rewrite <- app_assoc. cbn [app]. rewrite scanstring_roundtrip.
  lit.
  change (skip_ws (":"%char :: ?x)) with (":"%char :: x).
  cbv iota beta.
  change (code ":"%char =? 58) with true. cbv iota.
  change (skip_ws (" "%char :: ?x)) with (skip_ws x).
  rewrite skip_ws_iterencode, H by assumption.
  change (skip_ws (","%char :: ?x)) with (","%char :: x).
  cbv iota beta.
  change (code ","%char =? 125) with false.
  change (code ","%char =? 44) with true. cbv iota.
  rewrite skip_ws_newline_indent.
  reflexivity.
Qed.

Lemma distinct_app_fresh (a m : list str) (k : str) :
  distinct (a ++ k :: m) = true -> existsb (str_eqb k) a = false.
Proof.
  induction a as [|x a IH]; [reflexivity|]. cbn [app distinct existsb].
  intros H. apply andb_true_iff in H as [H1 H2]. rewrite (IH H2).
  rewrite existsb_app in H1. cbn [existsb] in H1.
  destruct (str_eqb x k) eqn:E.
  - rewrite orb_true_r in H1. discriminate.
  - apply str_eqb_neq in E.
    replace (str_eqb k x) with false; [reflexivity|].
    symmetry. apply str_eqb_neq. congruence.
Qed.

Lemma dict_set_fresh (acc : list (str * json)) (k : str) (v : json) :
  existsb (str_eqb k) (map fst acc) = false ->
  dict_set acc k v = acc ++ [(k, v)].
Proof.
  induction acc as [|[k' v'] acc IH]; [reflexivity|].
  cbn [map fst existsb dict_set app]. intros H.
  apply orb_false_iff in H as [H1 H2].
  replace (str_eqb k' k) with false; [now rewrite IH|].
  symmetry. apply str_eqb_neq. apply str_eqb_neq in H1. congruence.
Qed.

Lemma object_loop_roundtrip (level : nat) (rest : str)
      (ms : list (str * json)) :
  forall k v acc n,
    roundtrips v -> plain v = true ->
    Forall (fun kv => roundtrips (snd kv)) ms ->
    forallb (fun kv => plain (snd kv)) ms = true ->
    distinct (map fst acc ++ k :: map fst ms) = true ->
    length (iterencode (S level) v)
    + length (flat_map (fun y => item_sep (S level) ++ y)
                (map (encode_member (S level)) ms)) < n ->
    object_loop n
      (member_tail (S level) k v
       ++ flat_map (fun y => item_sep (S level) ++ y)
            (map (encode_member (S level)) ms)
       ++ newline_indent level ++ py "}" ++ rest) acc
    = POk (JObj (acc ++ (k, v) :: ms)) rest.
Proof.
  induction ms as [|[k' v'] ms IH]; intros k v acc n Hv Pv Hms Pms D Hn;
    (destruct n as [|n]; [lia|]).
  - lit. lit in Hn. rewrite object_loop_close; [|assumption|apply Hv; lia].
    now rewrite dict_set_fresh by (apply distinct_app_fresh in D; exact D).
  - cbn [forallb snd] in Pms. apply andb_true_iff in Pms as [Pv' Pms].
    inversion Hms as [|? ? Hv' Hms']; subst. cbn [snd] in Hv'.
    lit. lit in Hn. rewrite !length_app in Hn.
    rewrite <- !app_assoc, item_sep_app, encode_member_tail.
    cbn [app fst snd].
    rewrite encode_member_tail in Hn. cbn [length fst snd] in Hn.
    rewrite object_loop_next; [|assumption|apply Hv; lia].
    rewrite dict_set_fresh by (apply distinct_app_fresh in D; exact D).
    rewrite IH; try assumption.
    + now rewrite <- app_assoc.
    + rewrite map_app, <- app_assoc. exact D.
    + pose proof (item_sep_length (S level)).
      unfold member_tail in Hn. rewrite !length_app in Hn.
      cbn [length] in Hn. rewrite !length_app in Hn. lia.
Qed.

Lemma iterencode_array (level : nat) (x : json) (xs : list json) :
  iterencode level (JArr (x :: xs))
  = "["%char :: newline_indent (S level)
    ++ (iterencode (S level) x
        ++ flat_map (fun y => item_sep (S level) ++ y)
             (map (iterencode (S level)) xs))
    ++ newline_indent level ++ py "]".
Proof.
  change (iterencode level (JArr (x :: xs)))
    with (py "[" ++ newline_indent (S level)
          ++ join (item_sep (S level)) (map (iterencode (S level)) (x :: xs))
          ++ newline_indent level ++ py "]").
  cbn [map]. now rewrite join_cons.
Qed.

Lemma iterencode_object (level : nat) (m : str * json)
      (ms : list (str * json)) :
  iterencode level (JObj (m :: ms))
  = "{"%char :: newline_indent (S level)
    ++ (dquote :: member_tail (S level) (fst m) (snd m)
        ++ flat_map (fun y => item_sep (S level) ++ y)
             (map (encode_member (S level)) ms))
    ++ newline_indent level ++ py "}".
Proof.
  change (iterencode level (JObj (m :: ms)))
    with (py "{" ++ newline_indent (S level)
          ++ join (item_sep (S level))
               (map (encode_member (S level)) (m :: ms))
          ++ newline_indent level ++ py "}").
  cbn [map]. now rewrite join_cons, encode_member_tail.
Qed.

Lemma scan_roundtrip (v : json) : plain v = true -> roundtrips v.
Proof.
  induction v as [|b|z|lx|s|l IH|d IH] using json_induction;
    intros Pv level rest n Hn; try discriminate.
  - destruct n; [cbv in Hn; lia|reflexivity].
  - destruct n; [destruct b; cbv in Hn; lia|destruct b; reflexivity].
  - destruct n; [cbv in Hn; lia|].
    change (iterencode level (JStr s)) with (encode_basestring s).
    unfold encode_basestring. cbn [app]. rewrite <- app_assoc.
    cbn [scan_once app]. change (code dquote =? 34) with true. cbv iota.
    now rewrite scanstring_roundtrip.
  - destruct l as [|x xs].
    { destruct n; [cbv in Hn; lia|reflexivity]. }
    cbn [plain forallb] in Pv. apply andb_true_iff in Pv as [Px Pxs].
    inversion IH as [|? ? Hx Hxs]; subst.
    rewrite iterencode_array in *. cbn [length] in Hn.
    rewrite !length_app in Hn.
    destruct n as [|n]; [lia|].
    cbn [app scan_once]. change (code "["%char =? 34) with false.
    change (code "["%char =? 123) with false.
    change (code "["%char =? 91) with true. cbv iota.
    rewrite <- !app_assoc, skip_ws_newline_indent.
    destruct (iterencode_head (S level) x Px) as (c & t & E & Hc).
    rewrite E, <- app_comm_cons, (skip_ws_opener _ _ Hc).
    replace (code c =? 93) with false
      by (unfold opener in Hc; now destruct (code c =? 93), (is_ws c)).
    rewrite app_comm_cons, <- E.
    apply array_loop_roundtrip; auto.
    + rewrite Forall_forall in *. intros y Hy. apply Hxs; [exact Hy|].
      rewrite forallb_forall in Pxs. now apply Pxs.
    + lit in Hn. lia.
  - destruct d as [|[k v] ms].
    { destruct n; [cbv in Hn; lia|reflexivity]. }
    cbn [plain forallb map fst snd distinct] in Pv.
    apply andb_true_iff in Pv as [D Pv].
    apply andb_true_iff in Pv as [Pv Pms].
    inversion IH as [|? ? Hv Hms]; subst. cbn [snd] in Hv.
    rewrite iterencode_object in *. cbn [length fst snd] in Hn.
    rewrite !length_app in Hn. cbn [length] in Hn.
    unfold member_tail in Hn. rewrite !length_app in Hn.
    cbn [length] in Hn. rewrite !length_app in Hn.
    destruct n as [|n]; [lia|].
    cbn [app scan_once fst snd]. change (code "{"%char =? 34) with false.
    change (code "{"%char =? 123) with true. cbv iota.
    rewrite <- !app_assoc, skip_ws_newline_indent.
    cbn [app].
    change (skip_ws (dquote :: ?x)) with (dquote :: x). cbv iota beta.
    change (code dquote =? 125) with false.
    change (code dquote =? 34) with true. cbv iota.
    rewrite <- !app_assoc.
    apply (object_loop_roundtrip level rest ms k v []); auto.
    + rewrite Forall_forall in *. intros y Hy. apply Hms; [exact Hy|].
      rewrite forallb_forall in Pms. now apply Pms.
    + lit in Hn. lia.
Qed.

Lemma loads_dumps (v : json) : plain v = true -> loads (dumps v) = Ok v.
Proof.
  intros Pv. unfold loads, decode, dumps.
  rewrite <- (app_nil_r (iterencode 0 v)) at 1 2.
  rewrite skip_ws_iterencode by assumption.
  rewrite (scan_roundtrip v Pv); [reflexivity|].
  rewrite app_nil_r. lia.
Qed.

End Codec.

(** ** The decoder's budget *)

Section Budget.

Lemma skip_ws_length (s : str) : length (skip_ws s) <= length s.
Proof.
  induction s as [|c s IH]; [reflexivity|]. cbn [skip_ws].
  destruct (is_ws c); cbn [length]; lia.
Qed.

Lemma skip_ws_cons_length (s r : str) (c : ascii) :
  skip_ws s = c :: r -> length r < length s.
Proof. intros H. pose proof (skip_ws_length s). rewrite H in *. cbn in *. lia. Qed.

Lemma scanstring_shorter (n : nat) :
  forall s x r, length s <= n -> scanstring s = Some (x, r) ->
                length r < length s.
Proof.
  induction n as [|n IH]; intros s x r L H.
  - destruct s; [discriminate|cbn in L; lia].
  - destruct s as [|c s]; [discriminate|]. cbn [scanstring length] in *.
    destruct (code c =? 34). { injection H as <- <-. lia. }
    destruct (code c =? 92).
    + destruct s as [|e s]; [discriminate|].
      destruct (code e =? 117).
      * destruct s as [|h1 [|h2 [|h3 [|h4 s]]]]; try discriminate.
        destruct (decode_uXXXX h1 h2 h3 h4); [|discriminate].
        destruct (scanstring s) as [[t r']|] eqn:E; [|discriminate].
        injection H as <- <-. apply IH in E; cbn [length] in *; lia.
      * destruct (unescape e); [|discriminate].
        destruct (scanstring s) as [[t r']|] eqn:E; [|discriminate].
        injection H as <- <-. apply IH in E; cbn [length] in *; lia.
    + destruct (code c <? 32); [discriminate|].
      destruct (scanstring s) as [[t r']|] eqn:E; [|discriminate].
      injection H as <- <-. apply IH in E; lia.
Qed.

Lemma span_digits_length (s : str) :
  length (snd (span_digits s)) <= length s.
Proof.
  induction s as [|c s IH]; [reflexivity|]. cbn [span_digits].
  destruct (is_digit c); [|reflexivity].
  destruct (span_digits s). cbn [snd length] in *. lia.
Qed.

Lemma match_int_shorter (s i r : str) :
  match_int s = Some (i, r) -> length r < length s.
Proof.
  unfold match_int.
  assert (G : forall sign s1,
             length s1 <= length s ->
             match s1 with
             | [] => None
             | c :: r0 =>
                 if code c =? 48 then Some (sign ++ [c], r0)
                 else if is_digit c
                      then let (ds, rest) := span_digits r0 in
                           Some (sign ++ c :: ds, rest)
                      else None
             end = Some (i, r) -> length r < length s).
  { intros sign [|c r0] L H; [discriminate|]. cbn [length] in L.
    destruct (code c =? 48). { injection H as <- <-. lia. }
    destruct (is_digit c); [|discriminate].
    pose proof (span_digits_length r0) as S.
    destruct (span_digits r0). injection H as <- <-. cbn [snd] in S. lia. }
  destruct s as [|c s']; [discriminate|].
  destruct (code c =? 45); intros H.
  - apply (G [c] s'); [cbn [length]; lia|exact H].
  - apply (G [] (c :: s')); [lia|exact H].
Qed.

Lemma match_frac_length (s : str) : length (snd (match_frac s)) <= length s.
Proof.
  destruct s as [|c r]; [reflexivity|]. cbn [match_frac].
  destruct (code c =? 46); [|reflexivity].
  pose proof (span_digits_length r) as S.
  destruct (span_digits r) as [[|d ds] rest]; cbn [snd length] in *; lia.
Qed.

Lemma match_exp_length (s : str) : length (snd (match_exp s)) <= length s.
Proof.
  destruct s as [|c r]; [reflexivity|]. cbn [match_exp].
  destruct ((code c =? 101) || (code c =? 69)); [|reflexivity].
  destruct r as [|g r'].
  - cbn. lia.
  - destruct ((code g =? 45) || (code g =? 43)).
    + pose proof (span_digits_length r') as S.
      destruct (span_digits r') as [[|d ds] rest]; cbn [snd length] in *; lia.
    + pose proof (span_digits_length (g :: r')) as S.
      destruct (span_digits (g :: r')) as [[|d ds] rest];
        cbn [snd length] in *; lia.
Qed.

Lemma match_number_shorter (s : str) (v : json) (r : str) :
  match_number s = Some (v, r) -> length r < length s.
Proof.
  unfold match_number. destruct (match_int s) as [[i r0]|] eqn:E; [|discriminate].
  apply match_int_shorter in E.
  pose proof (match_frac_length r0) as F. destruct (match_frac r0) as [f r1].
  pose proof (match_exp_length r1) as X. destruct (match_exp r1) as [e r2].
  cbn [snd] in *. intros H.
  assert (r = r2) by (destruct f, e; now injection H). subst. lia.
Qed.

Ltac literal_rest H :=
  match type of H with
  | POk _ ?x = POk _ ?r =>
      let Hr := fresh in
      assert (Hr : r = x) by congruence;
      rewrite Hr, length_skipn; cbn [length]; lia
  end.

(** A scan that succeeds consumes at least one character. *)
Lemma scan_shorter (n : nat) :
  (forall s v r, scan_once n s = POk v r -> length r < length s)
  /\ (forall s acc v r, object_loop n s acc = POk v r -> length r < length s)
  /\ (forall s acc v r, array_loop n s acc = POk v r -> length r < length s).
Proof.
  induction n as [|n (IHs & IHo & IHa)]; [repeat split; discriminate|].
  repeat split.
  - intros s v r H. destruct s as [|c s']; [discriminate|].
    cbn [scan_once] in H. cbn [length].
    destruct (code c =? 34).
    { destruct (scanstring s') as [[x rest]|] eqn:E; [|discriminate].
      injection H as <- <-.
      apply scanstring_shorter with (n := length s') in E; lia. }
    destruct (code c =? 123).
    { destruct (skip_ws s') as [|c1 r1] eqn:E; [discriminate|].
      apply skip_ws_cons_length in E.
      destruct (code c1 =? 125). { injection H as <- <-. lia. }
      destruct (code c1 =? 34); [|discriminate]. apply IHo in H. lia. }
    destruct (code c =? 91).
    { destruct (skip_ws s') as [|c1 r1] eqn:E; [discriminate|].
      apply skip_ws_cons_length in E.
      destruct (code c1 =? 93). { injection H as <- <-. lia. }
      apply IHa in H. cbn [length] in H. lia. }
    destruct (startswith (c :: s') (py "null")); [literal_rest H|].
    destruct (startswith (c :: s') (py "true")); [literal_rest H|].
    destruct (startswith (c :: s') (py "false")); [literal_rest H|].
    destruct (match_number (c :: s')) as [[v' rest]|] eqn:E.
    { injection H as <- <-. apply match_number_shorter in E.
      cbn [length] in E. lia. }
    destruct (startswith (c :: s') (py "NaN")); [literal_rest H|].
    destruct (startswith (c :: s') (py "Infinity")); [literal_rest H|].
    destruct (startswith (c :: s') (py "-Infinity")); [literal_rest H|].
    discriminate.
  - intros s acc v r H. cbn [object_loop] in H.
    destruct (scanstring s) as [[key r0]|] eqn:E; [|discriminate].
    apply scanstring_shorter with (n := length s) in E; [|lia].
    destruct (skip_ws r0) as [|c r1] eqn:E1; [discriminate|].
    apply skip_ws_cons_length in E1.
    destruct (code c =? 58); [|discriminate].
    destruct (scan_once n (skip_ws r1)) as [v' r2| |] eqn:E2;
      try discriminate.
    apply IHs in E2. pose proof (skip_ws_length r1).
    destruct (skip_ws r2) as [|c2 r3] eqn:E3; [discriminate|].
    apply skip_ws_cons_length in E3.
    destruct (code c2 =? 125). { injection H as <- <-. lia. }
    destruct (code c2 =? 44); [|discriminate].
    destruct (skip_ws r3) as [|c3 r4] eqn:E4; [discriminate|].
    apply skip_ws_cons_length in E4.
    destruct (code c3 =? 34); [|discriminate]. apply IHo in H. lia.
  - intros s acc v r H. cbn [array_loop] in H.
    destruct (scan_once n s) as [v' r0| |] eqn:E; try discriminate.
    apply IHs in E.
    destruct (skip_ws r0) as [|c r1] eqn:E1; [discriminate|].
    apply skip_ws_cons_length in E1.
    destruct (code c =? 93). { injection H as <- <-. lia. }
    destruct (code c =? 44); [|discriminate].
    apply IHa in H. pose proof (skip_ws_length r1). lia.
Qed.

(** A budget of more than twice the length of the input is never
    exhausted. *)
Lemma scan_within_budget (n : nat) :
  (forall s, 2 * length s < n -> scan_once n s <> PFuel)
  /\ (forall s acc, 2 * length s < n -> object_loop n s acc <> PFuel)
  /\ (forall s acc, 2 * length s + 1 < n -> array_loop n s acc <> PFuel).
Proof.
  induction n as [|n (IHs & IHo & IHa)]; [repeat split; intros; lia|].
  repeat split.
  - intros s L. destruct s as [|c s']; [discriminate|].
    cbn [scan_once]. cbn [length] in L.
    destruct (code c =? 34).
    { destruct (scanstring s') as [[x rest]|]; discriminate. }
    destruct (code c =? 123).
    { destruct (skip_ws s') as [|c1 r1] eqn:E; [discriminate|].
      apply skip_ws_cons_length in E.
      destruct (code c1 =? 125); [discriminate|].
      destruct (code c1 =? 34); [|discriminate]. apply IHo. lia. }
    destruct (code c =? 91).
    { destruct (skip_ws s') as [|c1 r1] eqn:E; [discriminate|].
      apply skip_ws_cons_length in E.
      destruct (code c1 =? 93); [discriminate|].
      apply IHa. cbn [length]. lia. }
    destruct (startswith (c :: s') (py "null")); [discriminate|].
    destruct (startswith (c :: s') (py "true")); [discriminate|].
    destruct (startswith (c :: s') (py "false")); [discriminate|].
    destruct (match_number (c :: s')) as [[v' rest]|]; [discriminate|].
    destruct (startswith (c :: s') (py "NaN")); [discriminate|].
    destruct (startswith (c :: s') (py "Infinity")); [discriminate|].
    destruct (startswith (c :: s') (py "-Infinity")); discriminate.
  - intros s acc L. cbn [object_loop].
    destruct (scanstring s) as [[key r0]|] eqn:E; [|discriminate].
    apply scanstring_shorter with (n := length s) in E; [|lia].
    destruct (skip_ws r0) as [|c r1] eqn:E1; [discriminate|].
    apply skip_ws_cons_length in E1.
    destruct (code c =? 58); [|discriminate].
    pose proof (skip_ws_length r1).
    destruct (scan_once n (skip_ws r1)) as [v' r2| |] eqn:E2;
      [|discriminate|exfalso; revert E2; apply IHs; lia].
    apply (proj1 (scan_shorter n)) in E2.
    destruct (skip_ws r2) as [|c2 r3] eqn:E3; [discriminate|].
    apply skip_ws_cons_length in E3.
    destruct (code c2 =? 125); [discriminate|].
    destruct (code c2 =? 44); [|discriminate].
    destruct (skip_ws r3) as [|c3 r4] eqn:E4; [discriminate|].
    apply skip_ws_cons_length in E4.
    destruct (code c3 =? 34); [|discriminate]. apply IHo. lia.
  - intros s acc L. cbn [array_loop].
    destruct (scan_once n s) as [v' r0| |] eqn:E;
      [|discriminate|exfalso; revert E; apply IHs; lia].
    apply (proj1 (scan_shorter n)) in E.
    destruct (skip_ws r0) as [|c r1] eqn:E1; [discriminate|].
    apply skip_ws_cons_length in E1.
    destruct (code c =? 93); [discriminate|].
    destruct (code c =? 44); [|discriminate].
    pose proof (skip_ws_length r1). apply IHa. lia.
Qed.

(** [loads] never runs out of budget: it raises only on a syntax error. *)
Lemma decode_within_budget (s : str) : decode s <> PFuel.
Proof. unfold decode. apply (proj1 (scan_within_budget _)). lia. Qed.

End Budget.

(** ** The directory *)

Section Directory.



Lemma write_text_fresh (d : dir) (path content : str) :
  exists_ d path = false -> write_text d path content = d ++ [(path, content)].
Proof.
  induction d as [|[n c] d IH]; [reflexivity|].
  cbn [exists_ write_text app]. intros H.
  apply orb_false_iff in H as [-> H]. now rewrite IH.
Qed.

End Directory.

(** ** Records that are written and read back *)

Section WriteRead.

Lemma is_str_plain (v : json) : is_str v = true -> plain v = true.
Proof. now destruct v. Qed.


Lemma is_str_list_plain (v : json) : is_str_list v = true -> plain v = true.
Proof.
  destruct v as [| | | | |l|]; try discriminate. cbn [is_str_list plain].
  induction l as [|x l IH]; [reflexivity|]. cbn [forallb]. intros H.
  apply andb_true_iff in H as [Hx H].
  now rewrite (is_str_plain _ Hx), (IH H).
Qed.









End WriteRead.

(** ** The store: create and read *)







(** ** Two ids for one location *)




(** ** Parsing a response *)

Section Parsing.

Lemma parse_response_text (response : str) :
  _parse_response response
  = match insights_of_text (json_str response) with
    | Ok insights => Ok insights
    | Raise e => Raise (parse_failure e)
    end.
Proof. reflexivity. Qed.

(** The first key of the seven that [data] does not give raises. *)
Lemma insights_of_text_missing (text : str) (data : json) (k : str) (e : exn) :
  loads text = Ok data -> In k insights_fields ->
  py_getitem data k = Raise e ->
  exists k' e',
    In k' insights_fields /\ py_getitem data k' = Raise e'
    /\ insights_of_text text = Raise e'.
Proof.
  intros L K G. unfold insights_of_text. rewrite L. cbn [bind].
  destruct (py_getitem data (py "problem")) as [a|e1] eqn:G1;
    [|exists (py "problem"), e1; cbn; auto 10]. cbn [bind].
  destruct (py_getitem data (py "method")) as [b|e2] eqn:G2;
    [|exists (py "method"), e2; cbn; auto 10]. cbn [bind].
  destruct (py_getitem data (py "key_results")) as [c|e3] eqn:G3;
    [|exists (py "key_results"), e3; cbn; auto 10]. cbn [bind].
  destruct (py_getitem data (py "contributions")) as [d|e4] eqn:G4;
    [|exists (py "contributions"), e4; cbn; auto 10]. cbn [bind].
  destruct (py_getitem data (py "related_work")) as [f|e5] eqn:G5;
    [|exists (py "related_work"), e5; cbn; auto 10]. cbn [bind].
  destruct (py_getitem data (py "future_directions")) as [g|e6] eqn:G6;
    [|exists (py "future_directions"), e6; cbn; auto 10]. cbn [bind].
  destruct (py_getitem data (py "classification")) as [h|e7] eqn:G7;
    [|exists (py "classification"), e7; cbn; auto 10].
  exfalso. unfold insights_fields in K. cbn [In] in K.
  repeat (destruct K as [<-|K]; [congruence|]). exact K.
Qed.

(** A value is returned only when the text decodes and gives all seven
    keys; its fields are what the keys give. *)
Lemma insights_of_text_complete (text : str) (i : PaperInsights) :
  insights_of_text text = Ok i ->
  exists data,
    loads text = Ok data
    /\ py_getitem data (py "problem") = Ok (problem i)
    /\ py_getitem data (py "method") = Ok (method i)
    /\ py_getitem data (py "key_results") = Ok (key_results i)
    /\ py_getitem data (py "contributions") = Ok (contributions i)
    /\ py_getitem data (py "related_work") = Ok (related_work i)
    /\ py_getitem data (py "future_directions") = Ok (future_directions i)
    /\ py_getitem data (py "classification") = Ok (classification i).
Proof.
  unfold insights_of_text.
  destruct (loads text) as [data|]; [|discriminate]. cbn [bind].
  destruct (py_getitem data (py "problem")) eqn:G1; [|discriminate].
  cbn [bind].
  destruct (py_getitem data (py "method")) eqn:G2; [|discriminate].
  cbn [bind].
  destruct (py_getitem data (py "key_results")) eqn:G3; [|discriminate].
  cbn [bind].
  destruct (py_getitem data (py "contributions")) eqn:G4; [|discriminate].
  cbn [bind].
  destruct (py_getitem data (py "related_work")) eqn:G5; [|discriminate].
  cbn [bind].
  destruct (py_getitem data (py "future_directions")) eqn:G6;
    [|discriminate].
  cbn [bind].
  destruct (py_getitem data (py "classification")) eqn:G7; [|discriminate].
  cbn [bind]. intros [= <-]. exists data.
  cbn [problem method key_results contributions related_work
       future_directions classification].
  repeat split; assumption.
Qed.

End Parsing.

(** C6.  When the JSON text taken from a response does not decode,
    [_parse_response] raises the parsing-failure [ValueError] that holds the
    decoder's exception.  When it decodes and one of the seven keys cannot be
    read, [_parse_response] raises the parsing-failure [ValueError] that holds
    the exception of a key that cannot be read.  A value is returned only when
    the text decodes and all seven keys are read, and it carries what they
    give: never a partial or default value. *)
Theorem parse_response_all_or_nothing (response : str) :
  (forall e,
     loads (json_str response) = Raise e ->
     _parse_response response = Raise (parse_failure e))
  /\ (forall data k e,
        loads (json_str response) = Ok data ->
        In k insights_fields -> py_getitem data k = Raise e ->
        exists k' e',
          In k' insights_fields /\ py_getitem data k' = Raise e'
          /\ _parse_response response = Raise (parse_failure e'))
  /\ (forall i,
        _parse_response response = Ok i ->
        exists data,
          loads (json_str response) = Ok data
          /\ py_getitem data (py "problem") = Ok (problem i)
          /\ py_getitem data (py "method") = Ok (method i)
          /\ py_getitem data (py "key_results") = Ok (key_results i)
          /\ py_getitem data (py "contributions") = Ok (contributions i)
          /\ py_getitem data (py "related_work") = Ok (related_work i)
          /\ py_getitem data (py "future_directions")
             = Ok (future_directions i)
          /\ py_getitem data (py "classification") = Ok (classification i)).
Proof.
  rewrite parse_response_text. repeat split.
  - intros e L. unfold insights_of_text. now rewrite L.
  - intros data k e L K G.
    destruct (insights_of_text_missing _ _ _ _ L K G) as (k' & e' & A & B & C).
    exists k', e'. now rewrite C.
  - intros i H. apply insights_of_text_complete.
    destruct (insights_of_text (json_str response)); [congruence|discriminate].
Qed.

Lemma parse_response_all_or_nothing_witness :
  _parse_response (py "This is not JSON")
  = Raise (parse_failure JSONDecodeError)
  /\ exists k' e',
       In k' insights_fields
       /\ py_getitem (JObj [(py "problem", JStr (py "p"))]) k' = Raise e'
       /\ _parse_response (tpl "{'problem': 'p'}")
          = Raise (parse_failure e').
Proof.
  split.
  - apply (proj1 (parse_response_all_or_nothing (py "This is not JSON"))).
    reflexivity.
  - apply (proj1 (proj2 (parse_response_all_or_nothing
                           (tpl "{'problem': 'p'}")))
             (JObj [(py "problem", JStr (py "p"))]) (py "method")
             (KeyError (py "method"))); [reflexivity| |reflexivity].
    cbn. auto.
Defined.


(** ** The prompt *)

Section Prompt.

Lemma slice_prefix (s : str) (n : Z) :
  (0 <= n)%Z -> slice s 0 n = firstn (Z.to_nat n) s.
Proof.
  intros H. unfold slice, clamp.
  replace (n <? 0)%Z with false by (symmetry; apply Z.ltb_ge; exact H).
  cbn [Z.ltb Z.compare Z.to_nat Nat.min skipn]. rewrite Nat.sub_0_r.
  destruct (Nat.le_gt_cases (Z.to_nat n) (length s)) as [L|L].
  - now rewrite Nat.min_l.
  - rewrite Nat.min_r by lia.
    now rewrite firstn_all, firstn_all2 by lia.
Qed.

Lemma truncated_text_spec (text : str) :
  truncated_text text
  = firstn (Z.to_nat max_text_length) text
    ++ (if (max_text_length <? Z.of_nat (length text))%Z
        then truncation_marker else []).
Proof.
  unfold truncated_text. rewrite slice_prefix by (unfold max_text_length; lia).
  destruct (max_text_length <? Z.of_nat (length text))%Z;
    [reflexivity|now rewrite app_nil_r].
Qed.

Lemma truncation_marker_length : length truncation_marker = 26.
Proof. reflexivity. Qed.

Lemma truncated_text_nil : truncated_text [] = [].
Proof. rewrite truncated_text_spec. now rewrite firstn_nil. Qed.

End Prompt.

(** C7, amended.  The prompt is the template around the title and the first
    8000 characters of the text, directly followed by the truncation marker
    exactly when the text is longer than 8000 characters.  So a longer text
    makes the prompt contain the marker, a text of at most 8000 characters is
    embedded whole with nothing appended, and for a text of 10000 characters
    the prompt is shorter than 10000 plus what the template adds around the
    text. *)
Theorem prompt_truncates_text (title text : str) :
  _build_extraction_prompt title text
  = prompt_head ++ title ++ prompt_mid
    ++ firstn (Z.to_nat max_text_length) text
    ++ (if (max_text_length <? Z.of_nat (length text))%Z
        then truncation_marker else [])
    ++ prompt_tail
  /\ ((max_text_length < Z.of_nat (length text))%Z ->
      contains truncation_marker (_build_extraction_prompt title text) = true)
  /\ ((Z.of_nat (length text) <= max_text_length)%Z ->
      _build_extraction_prompt title text
      = prompt_head ++ title ++ prompt_mid ++ text ++ prompt_tail)
  /\ (Z.of_nat (length text) = 10000%Z ->
      (Z.of_nat (length (_build_extraction_prompt title text))
       < 10000 + Z.of_nat (overhead title))%Z).
Proof.
  assert (E : _build_extraction_prompt title text
              = prompt_head ++ title ++ prompt_mid
                ++ firstn (Z.to_nat max_text_length) text
                ++ (if (max_text_length <? Z.of_nat (length text))%Z
                    then truncation_marker else [])
                ++ prompt_tail).
  { unfold _build_extraction_prompt. rewrite truncated_text_spec.
    now rewrite <- !app_assoc. }
  split; [exact E|]. split; [|split].
  - intros H. rewrite E. apply Z.ltb_lt in H. rewrite H.
    rewrite !app_assoc. rewrite <- (app_assoc _ truncation_marker).
    apply contains_app.
  - intros H. rewrite E.
    replace (max_text_length <? Z.of_nat (length text))%Z with false
      by (symmetry; apply Z.ltb_ge; exact H).
    rewrite firstn_all2 by (unfold max_text_length in *; lia).
    reflexivity.
  - intros H. rewrite E. unfold overhead, _build_extraction_prompt.
    rewrite truncated_text_nil.
    replace (max_text_length <? Z.of_nat (length text))%Z with true
      by (symmetry; apply Z.ltb_lt; unfold max_text_length; lia).
    rewrite !length_app, truncation_marker_length.
    rewrite length_firstn. cbn [length].
    unfold max_text_length in *. lia.
Qed.

Lemma prompt_truncates_text_witness :
  contains truncation_marker
    (_build_extraction_prompt (py "Test Paper")
       (repeat "x"%char (Z.to_nat 10000))) = true
  /\ (Z.of_nat (length (_build_extraction_prompt (py "Test Paper")
                          (repeat "x"%char (Z.to_nat 10000))))
      < 10000 + Z.of_nat (overhead (py "Test Paper")))%Z.
Proof.
  pose proof (prompt_truncates_text (py "Test Paper")
                (repeat "x"%char (Z.to_nat 10000))) as (_ & A & _ & B).
  split.
  - apply A. rewrite repeat_length. reflexivity.
  - apply B. rewrite repeat_length. reflexivity.
Defined.

(** The claim as it was stated fails: a short text that is itself the marker
    makes the prompt contain the marker although nothing was truncated. *)
Lemma prompt_marker_iff_fails :
  ~ (forall title text,
       contains truncation_marker (_build_extraction_prompt title text) = true
       <-> (max_text_length < Z.of_nat (length text))%Z).
Proof.
  intros H. destruct (H (py "Test Paper") truncation_marker) as [F _].
  assert (C : contains truncation_marker
                (_build_extraction_prompt (py "Test Paper") truncation_marker)
              = true) by (vm_compute; reflexivity).
  specialize (F C). vm_compute in F. discriminate.
Qed.

(** ** The three shapes of a response *)

Section Fences.

Lemma fence_chars : fence = [backtick; backtick; backtick].
Proof. reflexivity. Qed.

Lemma isspace_not_backtick (c : ascii) :
  isspace c = true -> Ascii.eqb backtick c = false.
Proof.
  intros H. destruct (Ascii.eqb backtick c) eqn:E; [|reflexivity].
  apply Ascii.eqb_eq in E. subst c. discriminate.
Qed.

Lemma startswith_trans (a : str) :
  forall s b, startswith s b = true -> startswith b a = true ->
              startswith s a = true.
Proof.
  induction a as [|x a IH]; intros s b H1 H2; [reflexivity|].
  destruct b as [|y b]; [discriminate|]. destruct s as [|z s]; [discriminate|].
  cbn [startswith] in *.
  apply andb_true_iff in H1 as [E1 H1]. apply andb_true_iff in H2 as [E2 H2].
  apply Ascii.eqb_eq in E1, E2. subst. rewrite Ascii.eqb_refl.
  now apply (IH s b).
Qed.

(** No fence begins at a character that is not a backtick. *)
Lemma startswith_fence_head (c : ascii) (s : str) :
  Ascii.eqb backtick c = false -> startswith (c :: s) fence = false.
Proof. intros H. rewrite fence_chars. cbn [startswith]. now rewrite H. Qed.

(** A fence does not straddle the end of [p] when a character that is not a
    backtick follows. *)
Lemma startswith_fence_app (p : str) (c : ascii) (rest : str) :
  Ascii.eqb backtick c = false ->
  startswith p fence = false -> startswith (p ++ c :: rest) fence = false.
Proof.
  intros Hc. rewrite fence_chars.
  destruct p as [|x [|y [|z p]]]; cbn [startswith app]; rewrite ?Hc;
    rewrite ?andb_false_r; auto.
Qed.

Lemma startswith_sub_fence (sub s : str) :
  startswith sub fence = true -> startswith s fence = false ->
  startswith s sub = false.
Proof.
  intros H1 H2. destruct (startswith s sub) eqn:E; [|reflexivity].
  now rewrite (startswith_trans fence s sub E H1) in H2.
Qed.

Lemma find_from_cons (c : ascii) (s sub : str) (i : nat) :
  find_from (c :: s) sub i
  = if startswith (c :: s) sub then Some i else find_from s sub (S i).
Proof. reflexivity. Qed.

Lemma find_from_none_tail (c : ascii) (s sub : str) :
  find_from (c :: s) sub 0 = None ->
  startswith (c :: s) sub = false /\ find_from s sub 0 = None.
Proof.
  rewrite find_from_cons. destruct (startswith (c :: s) sub); [discriminate|].
  rewrite find_from_shift. destruct (find_from s sub 0); [discriminate|auto].
Qed.

(** Searching through a text that holds no fence, up to a following
    character that is not a backtick. *)
Lemma find_from_skip (sub p : str) (c : ascii) (rest : str) :
  startswith sub fence = true -> Ascii.eqb backtick c = false ->
  find_from p fence 0 = None ->
  forall i,
    find_from (p ++ c :: rest) sub i = find_from rest sub (i + length p + 1).
Proof.
  intros Hs Hc. induction p as [|x p IH]; intros Hp i.
  - cbn [app length]. rewrite find_from_cons.
    rewrite (startswith_sub_fence sub _ Hs (startswith_fence_head c rest Hc)).
    f_equal. lia.
  - destruct (find_from_none_tail _ _ _ Hp) as [H1 H2].
    cbn [app length]. rewrite find_from_cons.
    change (x :: p ++ c :: rest) with ((x :: p) ++ c :: rest).
    rewrite (startswith_sub_fence sub _ Hs
               (startswith_fence_app (x :: p) c rest Hc H1)).
    rewrite (IH H2). f_equal. lia.
Qed.

Lemma find_from_ws (sub w rest : str) :
  startswith sub fence = true -> whitespace w = true ->
  forall i, find_from (w ++ rest) sub i = find_from rest sub (i + length w).
Proof.
  intros Hs. induction w as [|c w IH]; intros Hw i.
  - cbn [app length]. f_equal. lia.
  - cbn [whitespace forallb] in Hw. apply andb_true_iff in Hw as [Hc Hw].
    cbn [app length]. rewrite find_from_cons.
    rewrite (startswith_sub_fence sub _ Hs
               (startswith_fence_head c _ (isspace_not_backtick c Hc))).
    rewrite (IH Hw). f_equal. lia.
Qed.

(** In [w1 ++ p ++ w2 ++ fence] the search meets nothing before the closing
    fence. *)
Lemma find_from_wrapped (sub w1 p w2 : str) (i : nat) :
  startswith sub fence = true ->
  whitespace w1 = true -> whitespace w2 = true -> w2 <> [] ->
  find_from p fence 0 = None ->
  find_from (w1 ++ p ++ w2 ++ fence) sub i
  = find_from fence sub (i + length w1 + length p + length w2).
Proof.
  intros Hs H1 H2 N Hp. destruct w2 as [|c w2]; [congruence|].
  cbn [whitespace forallb] in H2. apply andb_true_iff in H2 as [Hc H2].
  rewrite (find_from_ws sub w1 _ Hs H1). cbn [app].
  rewrite (find_from_skip sub p c _ Hs (isspace_not_backtick c Hc) Hp).
  rewrite (find_from_ws sub w2 _ Hs H2). cbn [length]. f_equal. lia.
Qed.

Lemma find_from_none_sub (sub p : str) :
  startswith sub fence = true ->
  find_from p fence 0 = None -> find_from p sub 0 = None.
Proof.
  intros Hs. induction p as [|x p IH]; intros Hp.
  - destruct sub; [discriminate|reflexivity].
  - destruct (find_from_none_tail _ _ _ Hp) as [H1 H2].
    rewrite find_from_cons, (startswith_sub_fence sub _ Hs H1).
    rewrite find_from_shift, (IH H2). reflexivity.
Qed.

End Fences.

Section Extraction.

Lemma find_at (s sub : str) (start : nat) :
  start <= length s ->
  find s sub (Z.of_nat start)
  = match find_from (skipn start s) sub start with
    | Some i => Z.of_nat i
    | None => (-1)%Z
    end.
Proof.
  intros H. unfold find, clamp.
  replace (Z.of_nat start <? 0)%Z with false by (symmetry; apply Z.ltb_ge; lia).
  replace (Z.of_nat (length s) <? Z.of_nat start)%Z with false
    by (symmetry; apply Z.ltb_ge; lia).
  now rewrite Nat2Z.id, Nat.min_l by exact H.
Qed.

Lemma slice_at (s : str) (a b : nat) :
  a <= b -> b <= length s ->
  slice s (Z.of_nat a) (Z.of_nat b) = firstn (b - a) (skipn a s).
Proof.
  intros H1 H2. unfold slice, clamp.
  replace (Z.of_nat a <? 0)%Z with false by (symmetry; apply Z.ltb_ge; lia).
  replace (Z.of_nat b <? 0)%Z with false by (symmetry; apply Z.ltb_ge; lia).
  now rewrite !Nat2Z.id, !Nat.min_l by lia.
Qed.

Lemma lstrip_ws (w s : str) : whitespace w = true -> lstrip (w ++ s) = lstrip s.
Proof.
  induction w as [|c w IH]; [reflexivity|]. cbn [whitespace forallb].
  intros H. apply andb_true_iff in H as [Hc H]. cbn [app lstrip].
  rewrite Hc. now apply IH.
Qed.

Lemma whitespace_rev (w : str) : whitespace w = true -> whitespace (rev w) = true.
Proof.
  unfold whitespace. rewrite !forallb_forall. intros H c Hc.
  apply H. now apply in_rev.
Qed.

Lemma rstrip_ws (s w : str) : whitespace w = true -> rstrip (s ++ w) = rstrip s.
Proof.
  intros H. unfold rstrip. rewrite rev_app_distr.
  now rewrite (lstrip_ws _ _ (whitespace_rev _ H)).
Qed.

Lemma strip_ws (w1 p w2 : str) :
  whitespace w1 = true -> whitespace w2 = true ->
  strip (w1 ++ p ++ w2) = strip p.
Proof.
  intros H1 H2. unfold strip. rewrite (lstrip_ws _ _ H1).
  induction p as [|c p IH].
  - cbn [app]. rewrite <- (app_nil_r w2) at 1. now rewrite (lstrip_ws _ _ H2).
  - cbn [app lstrip]. destruct (isspace c); [exact IH|].
    change (c :: p ++ w2) with ((c :: p) ++ w2). now apply rstrip_ws.
Qed.

(** The text between the opening marker [open] and the closing fence. *)
Lemma slice_wrapped (open w1 p w2 : str) :
  let r := open ++ w1 ++ p ++ w2 ++ fence in
  whitespace w1 = true -> whitespace w2 = true -> w2 <> [] ->
  startswith open fence = true ->
  contains fence p = false ->
  strip (slice r (Z.of_nat (length open))
           (find r fence (Z.of_nat (length open))))
  = strip p.
Proof.
  intros r H1 H2 N Ho Hp. subst r.
  assert (Hp' : find_from p fence 0 = None).
  { unfold contains in Hp. now destruct (find_from p fence 0). }
  rewrite find_at by (rewrite length_app; lia).
  rewrite skipn_app, skipn_all, Nat.sub_diag. cbn [app skipn].
  rewrite (find_from_wrapped fence w1 p w2 _ eq_refl H1 H2 N Hp').
  cbn [find_from fence py list_ascii_of_string startswith].
  rewrite !Ascii.eqb_refl. cbn [andb].
  rewrite slice_at by (rewrite ?length_app; cbn [length]; lia).
  rewrite skipn_app, skipn_all, Nat.sub_diag. cbn [app skipn].
  replace (length open + length w1 + length p + length w2 - length open)
    with (length (w1 ++ p ++ w2)) by (rewrite !length_app; lia).
  replace (w1 ++ p ++ w2 ++ [ "`"%char; "`"%char; "`"%char])
    with ((w1 ++ p ++ w2) ++ [ "`"%char; "`"%char; "`"%char])
    by (now rewrite <- !app_assoc).
  rewrite firstn_app, firstn_all, Nat.sub_diag. cbn [firstn].
  rewrite app_nil_r. now apply strip_ws.
Qed.

End Extraction.

Section Shapes.

Lemma contains_prefix (m b : str) : contains m (m ++ b) = true.
Proof. exact (contains_app [] m b). Qed.

Lemma find_prefix (m b : str) : find (m ++ b) m 0 = 0%Z.
Proof.
  change 0%Z with (Z.of_nat 0).
  rewrite (find_at (m ++ b) m 0) by lia. cbn [skipn].
  pose proof (startswith_app m b) as H.
  destruct (m ++ b); cbn [find_from]; now rewrite H.
Qed.

Lemma isspace_not_j (c : ascii) :
  isspace c = true -> Ascii.eqb "j"%char c = false.
Proof.
  intros H. destruct (Ascii.eqb "j"%char c) eqn:E; [|reflexivity].
  apply Ascii.eqb_eq in E. subst c. discriminate.
Qed.

Lemma no_fence (p : str) :
  contains fence p = false -> find_from p fence 0 = None.
Proof. unfold contains. now destruct (find_from p fence 0). Qed.

(** A bare fence followed by white space is not a JSON-labelled fence. *)
Lemma fenced_has_no_fence_json (w1 p w2 : str) :
  whitespace w1 = true -> whitespace w2 = true -> w1 <> [] -> w2 <> [] ->
  contains fence p = false ->
  contains fence_json (fenced w1 p w2) = false.
Proof.
  intros H1 H2 N1 N2 Hp. destruct w1 as [|c w1]; [congruence|].
  pose proof H1 as H1'. cbn [whitespace forallb] in H1'.
  apply andb_true_iff in H1' as [Hc _].
  pose proof (isspace_not_backtick c Hc) as Hb.
  pose proof (isspace_not_j c Hc) as Hj.
  unfold contains, fenced.
  change (fence ++ (c :: w1) ++ p ++ w2 ++ fence)
    with ("`"%char :: "`"%char :: "`"%char
          :: (c :: w1) ++ p ++ w2 ++ fence).
  rewrite 3 find_from_cons.
  unfold fence_json at 1 2 3. cbn [py list_ascii_of_string startswith app].
  change (Ascii.eqb "`" c) with (Ascii.eqb backtick c).
  rewrite Hb, Hj, !Ascii.eqb_refl. cbn [andb].
  change (c :: w1 ++ p ++ w2 ++ fence) with ((c :: w1) ++ p ++ w2 ++ fence).
  rewrite (find_from_wrapped fence_json (c :: w1) p w2 _ eq_refl H1 H2 N2
             (no_fence p Hp)).
  reflexivity.
Qed.

Lemma payload_has_no_fence_json (p : str) :
  contains fence p = false -> contains fence_json p = false.
Proof.
  intros H. unfold contains.
  now rewrite (find_from_none_sub fence_json p eq_refl (no_fence p H)).
Qed.

Lemma json_str_fenced_json (w1 p w2 : str) :
  whitespace w1 = true -> whitespace w2 = true -> w2 <> [] ->
  contains fence p = false ->
  json_str (fenced_json w1 p w2) = strip p.
Proof.
  intros H1 H2 N Hp. unfold json_str, fenced_json.
  rewrite contains_prefix, find_prefix.
  change (0 + 7)%Z with (Z.of_nat (length fence_json)).
  now apply slice_wrapped.
Qed.

Lemma json_str_fenced (w1 p w2 : str) :
  whitespace w1 = true -> whitespace w2 = true -> w1 <> [] -> w2 <> [] ->
  contains fence p = false ->
  json_str (fenced w1 p w2) = strip p.
Proof.
  intros H1 H2 N1 N2 Hp. unfold json_str.
  rewrite (fenced_has_no_fence_json w1 p w2 H1 H2 N1 N2 Hp).
  unfold fenced. rewrite contains_prefix, find_prefix.
  change (0 + 3)%Z with (Z.of_nat (length fence)).
  now apply slice_wrapped.
Qed.

Lemma json_str_bare (p : str) :
  contains fence p = false -> json_str p = strip p.
Proof.
  intros Hp. unfold json_str.
  now rewrite (payload_has_no_fence_json p Hp), Hp.
Qed.

End Shapes.

(** C5, amended.  For a payload that holds no fence marker, wrapped between
    white space (a line break, say): the payload in a JSON-labelled fence, the
    payload in a bare fence and the payload alone give the same JSON text, the
    payload stripped, and so parse to the same result, an equal Insights value
    whenever the payload decodes to one.  The three strategies are tried in
    that order and the first that applies is taken. *)
Theorem fence_shapes_agree (w1 payload w2 : str) :
  whitespace w1 = true -> whitespace w2 = true -> w1 <> [] -> w2 <> [] ->
  contains fence payload = false ->
  _parse_response payload
  = match insights_of_text (strip payload) with
    | Ok i => Ok i
    | Raise e => Raise (parse_failure e)
    end
  /\ _parse_response (fenced_json w1 payload w2) = _parse_response payload
  /\ _parse_response (fenced w1 payload w2) = _parse_response payload
  /\ (forall response,
        json_str response
        = if contains fence_json response then
            strip (slice response (find response fence_json 0 + 7)
                     (find response fence (find response fence_json 0 + 7)))
          else if contains fence response then
            strip (slice response (find response fence 0 + 3)
                     (find response fence (find response fence 0 + 3)))
          else strip response).
Proof.
  intros H1 H2 N1 N2 Hp. rewrite !parse_response_text.
  rewrite (json_str_fenced_json w1 payload w2 H1 H2 N2 Hp).
  rewrite (json_str_fenced w1 payload w2 H1 H2 N1 N2 Hp).
  rewrite (json_str_bare payload Hp).
  repeat split; reflexivity.
Qed.

Lemma fence_shapes_agree_witness :
  _parse_response (fenced_json [LF] Samples.third_value_response [LF])
  = _parse_response Samples.third_value_response
  /\ _parse_response (fenced [LF] Samples.third_value_response [LF])
     = _parse_response Samples.third_value_response.
Proof.
  pose proof (fence_shapes_agree [LF] Samples.third_value_response [LF]
                eq_refl eq_refl) as H.
  destruct H as (_ & A & B & _);
    [discriminate|discriminate|reflexivity|].
  split; [exact A|exact B].
Defined.

(** The claim as it was stated fails: a payload that decodes to an Insights
    value, one of whose strings holds a fence marker, is not parsed to that
    value, neither alone nor in a fence. *)
Lemma fence_shapes_disagree_on_backticks :
  ~ (forall payload i,
       insights_of_text payload = Ok i ->
       _parse_response (fenced_json [LF] payload [LF]) = Ok i
       /\ _parse_response (fenced [LF] payload [LF]) = Ok i
       /\ _parse_response payload = Ok i).
Proof.
  intros H.
  destruct (insights_of_text Samples.backtick_payload) as [i|] eqn:E;
    [|vm_compute in E; discriminate].
  destruct (H _ _ E) as (_ & _ & F). vm_compute in F. discriminate.
Qed.

(** ** Search *)

Section Search.

Lemma search_loop_filter (query_lower : str) (papers : list Paper) :
  forallb searchable papers = true ->
  forall results,
    search_loop query_lower papers results
    = Ok (results ++ filter (matches query_lower) papers).
Proof.
  induction papers as [|p papers IH]; intros H results.
  - cbn [search_loop filter]. now rewrite app_nil_r.
  - cbn [forallb] in H. apply andb_true_iff in H as [Hp H].
    unfold searchable in Hp. apply andb_true_iff in Hp as [Ht Hi].
    cbn [search_loop filter]. unfold matches at 1.
    destruct (title p) as [| | | |t| |]; try discriminate.
    cbn [py_lower bind text_of].
    destruct (contains query_lower (lower t)).
    { cbn [orb]. rewrite (IH H). now rewrite <- app_assoc. }
    cbn [orb]. destruct (insights p) as [i|v].
    + apply andb_true_iff in Hi as [Hi Hc].
      apply andb_true_iff in Hi as [Ha Hb].
      destruct (problem i) as [| | | |a| |]; try discriminate.
      destruct (method i) as [| | | |b| |]; try discriminate.
      destruct (key_results i) as [| | | |c| |]; try discriminate.
      cbn [add3_lower kind_of py_add bind text_of].
      rewrite <- app_assoc.
      destruct (contains query_lower (lower (a ++ b ++ c))).
      * rewrite (IH H). now rewrite <- app_assoc.
      * now rewrite (IH H).
    + destruct (truthy v); [discriminate|]. now rewrite (IH H).
Qed.

Lemma filter_none {A : Type} (f : A -> bool) (l : list A) :
  (forall x, In x l -> f x = false) -> filter f l = [].
Proof.
  induction l as [|x l IH]; intros N; [reflexivity|].
  cbn [filter]. rewrite (N x (or_introl eq_refl)).
  apply IH. intros y Hy. apply N. now right.
Qed.

End Search.

(** C4, amended.  On a directory all of whose listed records can be searched
    (the title a string, and, when the record has insights, their problem,
    method and key results strings), [search] returns exactly the records of
    [list_all] for which the lowercased query occurs in the lowercased
    title, or, when the record has insights, in the lowercased concatenation
    of problem, method and key results; in the order of [list_all].  Queries
    that differ by case give the same result, and a query that matches no
    record gives the empty list. *)
Theorem search_is_filter_of_list_all (query : str) (d : dir) :
  forallb searchable (list_all d) = true ->
  search query d = Ok (filter (matches (lower query)) (list_all d))
  /\ (forall query', lower query' = lower query ->
        search query' d = search query d)
  /\ ((forall p, In p (list_all d) -> matches (lower query) p = false) ->
      search query d = Ok []).
Proof.
  intros H. unfold search.
  rewrite (search_loop_filter (lower query) (list_all d) H []). cbn [app].
  split; [reflexivity|]. split.
  - intros q' ->. now rewrite (search_loop_filter _ _ H []).
  - intros N. f_equal. now apply filter_none.
Qed.

Lemma search_is_filter_of_list_all_witness :
  search (py "TEST METHOD") (snd (add Samples.sample_paper []))
  = Ok [Samples.sample_paper]
  /\ search (py "nonexistent term") (snd (add Samples.sample_paper []))
     = Ok [].
Proof.
  split.
  - apply (proj1 (search_is_filter_of_list_all (py "TEST METHOD")
                    (snd (add Samples.sample_paper [])) eq_refl)).
  - apply (proj1 (search_is_filter_of_list_all (py "nonexistent term")
                    (snd (add Samples.sample_paper [])) eq_refl)).
Defined.

(** The claim as it was stated fails: a directory can hold a file that reads
    as a record whose title is a number, and on it [search] raises instead of
    returning records. *)
Lemma search_raises_on_numeric_title :
  list_all Samples.numbered_dir = [Samples.numbered_paper]
  /\ search (py "test") Samples.numbered_dir = Raise AttributeError.
Proof. split; vm_compute; reflexivity. Qed.

(* ================================================================== *)
(** * Further properties of the code *)

Import InterestManager PaperDiscoverer PaperIngestor.

(** ** The store: update, delete, and what they leave alone *)

Section DirectoryMore.

Lemma exists_read_text (d : dir) (path : str) :
  exists_ d path = false -> read_text d path = Raise FileNotFoundError.
Proof.
  induction d as [|[n c] d IH]; [reflexivity|]. cbn [exists_ read_text].
  intros H. apply orb_false_iff in H as [-> H]. now apply IH.
Qed.

Lemma exists_in_names (d : dir) (path : str) :
  exists_ d path = true <-> In path (map fst d).
Proof.
  induction d as [|[n c] d IH]; cbn [exists_ map fst In].
  - split; [discriminate|tauto].
  - rewrite orb_true_iff, IH, str_eqb_eq. tauto.
Qed.

Lemma exists_write_other (d : dir) (path content other : str) :
  other <> path ->
  exists_ (write_text d path content) other = exists_ d other.
Proof.
  intros N. induction d as [|[n c] d IH]; cbn [write_text exists_].
  - replace (str_eqb path other) with false; [reflexivity|].
    symmetry. apply str_eqb_neq. congruence.
  - destruct (str_eqb n path); cbn [exists_]; [reflexivity|now rewrite IH].
Qed.

Lemma read_write_other (d : dir) (path content other : str) :
  other <> path ->
  read_text (write_text d path content) other = read_text d other.
Proof.
  intros N. induction d as [|[n c] d IH]; cbn [write_text read_text].
  - replace (str_eqb path other) with false; [reflexivity|].
    symmetry. apply str_eqb_neq. congruence.
  - destruct (str_eqb n path) eqn:E; cbn [read_text].
    + apply str_eqb_eq in E. subst n.
      replace (str_eqb path other) with false; [reflexivity|].
      symmetry. apply str_eqb_neq. congruence.
    + now rewrite IH.
Qed.

Lemma names_write_existing (d : dir) (path content : str) :
  exists_ d path = true ->
  map fst (write_text d path content) = map fst d.
Proof.
  induction d as [|[n c] d IH]; [discriminate|].
  cbn [exists_ write_text]. destruct (str_eqb n path); [reflexivity|].
  cbn [orb map fst]. intros H. now rewrite IH.
Qed.

Lemma exists_unlink_other (d : dir) (path other : str) :
  other <> path -> exists_ (unlink d path) other = exists_ d other.
Proof.
  intros N. induction d as [|[n c] d IH]; [reflexivity|].
  cbn [unlink exists_]. destruct (str_eqb n path) eqn:E; cbn [exists_].
  - apply str_eqb_eq in E. subst n.
    replace (str_eqb path other) with false; [reflexivity|].
    symmetry. apply str_eqb_neq. congruence.
  - now rewrite IH.
Qed.

Lemma read_unlink_other (d : dir) (path other : str) :
  other <> path -> read_text (unlink d path) other = read_text d other.
Proof.
  intros N. induction d as [|[n c] d IH]; [reflexivity|].
  cbn [unlink read_text]. destruct (str_eqb n path) eqn:E; cbn [read_text].
  - apply str_eqb_eq in E. subst n.
    replace (str_eqb path other) with false; [reflexivity|].
    symmetry. apply str_eqb_neq. congruence.
  - now rewrite IH.
Qed.



Lemma names_write (d : dir) (path content : str) :
  NoDup (map fst d) -> NoDup (map fst (write_text d path content)).
Proof.
  intros H. destruct (exists_ d path) eqn:E.
  - now rewrite names_write_existing.
  - rewrite write_text_fresh by exact E. rewrite map_app. cbn [map fst].
    apply NoDup_app; [exact H|repeat constructor; intros []|].
    intros x Hx [<-|[]]. apply exists_in_names in Hx. congruence.
Qed.

(** [get] depends on the file at the location of the id only. *)
Lemma get_ext (paper_id : str) (d d' : dir) :
  exists_ d' (_get_paper_path paper_id) = exists_ d (_get_paper_path paper_id) ->
  read_text d' (_get_paper_path paper_id)
  = read_text d (_get_paper_path paper_id) ->
  get paper_id d' = get paper_id d.
Proof.
  intros E R. unfold get, _load_paper, load_body. now rewrite E, R.
Qed.

End DirectoryMore.





(** X3.  [add], [update] and [delete] leave every other location alone: a
    read of an id that is mapped to another location returns what it
    returned before. *)
Theorem other_ids_untouched (other : str) (r : Paper) (paper_id : str)
        (d : dir) :
  (forall path, path_of r = Ok path -> _get_paper_path other <> path ->
     get other (snd (add r d)) = get other d
     /\ get other (snd (update r d)) = get other d)
  /\ (_get_paper_path other <> _get_paper_path paper_id ->
      get other (snd (delete paper_id d)) = get other d).
Proof.
  split.
  - intros path P N. unfold add, update. rewrite P.
    split.
    + destruct (exists_ d path); [reflexivity|]. cbn [snd].
      apply get_ext; unfold _save_paper;
        [now apply exists_write_other|now apply read_write_other].
    + destruct (negb (exists_ d path)); [reflexivity|]. cbn [snd].
      apply get_ext; unfold _save_paper;
        [now apply exists_write_other|now apply read_write_other].
  - intros N. unfold delete.
    destruct (negb (exists_ d (_get_paper_path paper_id))); [reflexivity|].
    cbn [snd].
    apply get_ext; [now apply exists_unlink_other|now apply read_unlink_other].
Qed.

Lemma other_ids_untouched_witness :
  get (py "arxiv:2301.12345")
    (snd (add Samples.numbered_paper (snd (add Samples.sample_paper []))))
  = get (py "arxiv:2301.12345") (snd (add Samples.sample_paper []))
  /\ get (py "arxiv:2301.12345")
       (snd (delete (py "arxiv:0000.00001")
               (snd (add Samples.sample_paper []))))
     = get (py "arxiv:2301.12345") (snd (add Samples.sample_paper [])).
Proof.
  split.
  - apply (proj1 (other_ids_untouched (py "arxiv:2301.12345")
                    Samples.numbered_paper []
                    (snd (add Samples.sample_paper [])))
             (py "arxiv_0000.00001.json")); [reflexivity|discriminate].
  - apply (proj2 (other_ids_untouched (py "arxiv:2301.12345")
                    Samples.sample_paper (py "arxiv:0000.00001")
                    (snd (add Samples.sample_paper [])))).
    discriminate.
Defined.

(** ** Listing *)

Section Listing.

Lemma endswith_app (s suf : str) : endswith (s ++ suf) suf = true.
Proof. unfold endswith. rewrite rev_app_distr. apply startswith_app. Qed.

Lemma list_loop_app (a b : list str) (d : dir) (acc : list Paper) :
  list_loop (a ++ b) d acc = list_loop b d (list_loop a d acc).
Proof.
  revert acc. induction a as [|p a IH]; intros acc; [reflexivity|].
  cbn [app list_loop]. destruct (_load_paper p d); apply IH.
Qed.

Lemma list_loop_acc (paths : list str) (d : dir) (acc : list Paper) :
  list_loop paths d acc = acc ++ list_loop paths d [].
Proof.
  revert acc. induction paths as [|p paths IH]; intros acc.
  - cbn [list_loop]. now rewrite app_nil_r.
  - cbn [list_loop]. destruct (_load_paper p d) as [x|].
    + rewrite (IH (acc ++ [x])), (IH ([] ++ [x])).
      now rewrite <- !app_assoc.
    + apply IH.
Qed.

Lemma read_text_app (d e : dir) (path : str) :
  exists_ d path = true -> read_text (d ++ e) path = read_text d path.
Proof.
  induction d as [|[n c] d IH]; [discriminate|].
  cbn [exists_ app read_text]. destruct (str_eqb n path); [reflexivity|].
  exact IH.
Qed.

Lemma read_text_app_fresh (d e : dir) (path : str) :
  exists_ d path = false -> read_text (d ++ e) path = read_text e path.
Proof.
  induction d as [|[n c] d IH]; [reflexivity|].
  cbn [exists_ app read_text]. intros H.
  apply orb_false_iff in H as [-> H]. now apply IH.
Qed.

(** The files already there are read as before when a file is added at a
    free name. *)
Lemma list_loop_extended (paths : list str) (d e : dir) (acc : list Paper) :
  (forall p, In p paths -> exists_ d p = true) ->
  list_loop paths (d ++ e) acc = list_loop paths d acc.
Proof.
  revert acc. induction paths as [|p paths IH]; intros acc H; [reflexivity|].
  cbn [list_loop]. unfold _load_paper, load_body.
  rewrite (read_text_app d e p (H p (or_introl eq_refl))).
  fold (load_body p d). fold (_load_paper p d).
  destruct (_load_paper p d); apply IH; intros q Hq; apply H; now right.
Qed.

Lemma glob_json_names (d : dir) (p : str) :
  In p (glob_json d) -> exists_ d p = true.
Proof.
  unfold glob_json. intros H. apply filter_In in H as [H _].
  now apply exists_in_names.
Qed.

Lemma list_all_extended (d : dir) (name content : str) :
  exists_ d name = false ->
  list_all (d ++ [(name, content)])
  = list_all d
    ++ (if endswith name (py ".json")
        then match _load_paper name [(name, content)] with
             | Some paper => [paper]
             | None => []
             end
        else []).
Proof.
  intros F. unfold list_all, glob_json.
  rewrite map_app, filter_app. cbn [map fst filter].
  fold (glob_json d). rewrite list_loop_app.
  rewrite (list_loop_extended (glob_json d) d _ [] (glob_json_names d)).
  destruct (endswith name (py ".json")).
  - cbn [list_loop]. unfold _load_paper, load_body.
    rewrite (read_text_app_fresh d _ name F).
    destruct (text <- read_text [(name, content)] name;; _) ;
      [|now rewrite app_nil_r].
    reflexivity.
  - cbn [list_loop]. now rewrite app_nil_r.
Qed.

End Listing.



(** X5.  A file that is not a record is passed over: adding, at a free
    name, a file whose name does not end in .json, or whose content does not
    read as a record, changes neither what [list_all] returns nor what
    [search] returns. *)
Theorem list_all_skips_other_files (d : dir) (name content : str) :
  exists_ d name = false ->
  endswith name (py ".json") = false
  \/ _load_paper name [(name, content)] = None ->
  list_all (d ++ [(name, content)]) = list_all d
  /\ forall query, search query (d ++ [(name, content)]) = search query d.
Proof.
  intros F H.
  assert (E : list_all (d ++ [(name, content)]) = list_all d).
  { rewrite list_all_extended by exact F.
    destruct H as [-> | ->]; [|destruct (endswith name (py ".json"))];
      now rewrite app_nil_r. }
  split; [exact E|]. intros query. unfold search. now rewrite E.
Qed.

Lemma list_all_skips_other_files_witness :
  list_all (snd (add Samples.sample_paper [])
            ++ [(py "broken.json", py "{ not json")])
  = list_all (snd (add Samples.sample_paper [])).
Proof.
  apply (list_all_skips_other_files (snd (add Samples.sample_paper []))
           (py "broken.json") (py "{ not json")); [reflexivity|].
  right. reflexivity.
Defined.

(** ** Search, on any directory *)

Section SearchMore.

Lemma search_loop_returns (query_lower : str) (papers : list Paper) :
  forall results l,
    search_loop query_lower papers results = Ok l ->
    l = results ++ filter (matches query_lower) papers.
Proof.
  induction papers as [|p papers IH]; intros results l H.
  - cbn [search_loop filter] in *. rewrite app_nil_r. congruence.
  - cbn [search_loop filter] in H |- *. unfold matches at 1.
    destruct (title p) as [| | | |t| |]; try discriminate.
    cbn [py_lower bind text_of] in *.
    destruct (contains query_lower (lower t)); cbn [orb].
    { rewrite (IH _ _ H). now rewrite <- app_assoc. }
    destruct (insights p) as [i|v].
    + unfold add3_lower in H.
      destruct (problem i) as [|?|?|?|t1|?|?], (method i) as [|?|?|?|t2|?|?],
        (key_results i) as [|?|?|?|t3|?|?];
        cbn [kind_of py_add bind] in H; try discriminate.
      cbn [text_of]. rewrite <- app_assoc in H.
      destruct (contains query_lower (lower (t1 ++ t2 ++ t3))).
      * rewrite (IH _ _ H). now rewrite <- app_assoc.
      * exact (IH _ _ H).
    + destruct (truthy v); [discriminate|]. exact (IH _ _ H).
Qed.

Lemma contains_nil (s : str) : contains [] s = true.
Proof. unfold contains. now destruct s. Qed.

Lemma search_loop_empty_query (papers : list Paper) :
  forallb (fun p => is_str (title p)) papers = true ->
  forall results, search_loop [] papers results = Ok (results ++ papers).
Proof.
  induction papers as [|p papers IH]; intros H results.
  - cbn [search_loop]. now rewrite app_nil_r.
  - cbn [forallb] in H. apply andb_true_iff in H as [Ht H].
    cbn [search_loop]. destruct (title p); try discriminate.
    cbn [py_lower bind]. rewrite contains_nil, (IH H).
    now rewrite <- app_assoc.
Qed.

End SearchMore.

(** X6.  On any directory, whenever [search] returns it returns exactly the
    records of [list_all] that match the query, in the order of [list_all]:
    it neither invents nor reorders nor drops a record. *)
Theorem search_returns_matches (query : str) (d : dir) (l : list Paper) :
  search query d = Ok l ->
  l = filter (matches (lower query)) (list_all d).
Proof. intros H. exact (search_loop_returns _ _ [] l H). Qed.

Lemma search_returns_matches_witness :
  [Samples.sample_paper]
  = filter (matches (lower (py "TEST"))) 
      (list_all (snd (add Samples.sample_paper []))).
Proof.
  apply (search_returns_matches (py "TEST")
           (snd (add Samples.sample_paper [])) [Samples.sample_paper]).
  reflexivity.
Defined.

(** X7.  The empty query matches every record: when the titles of the
    listed records are strings, [search] of the empty string returns all of
    [list_all], whatever the insights hold. *)
Theorem search_empty_query_lists_all (d : dir) :
  forallb (fun p => is_str (title p)) (list_all d) = true ->
  search [] d = Ok (list_all d).
Proof.
  intros H. unfold search. cbn [lower map].
  now rewrite (search_loop_empty_query _ H []).
Qed.

Lemma search_empty_query_lists_all_witness :
  search [] (snd (add Samples.sample_paper []))
  = Ok (list_all (snd (add Samples.sample_paper []))).
Proof.
  apply (search_empty_query_lists_all (snd (add Samples.sample_paper []))).
  reflexivity.
Defined.

(** ** What a file has to hold to be read as a record *)

Section Loading.

Lemma Paper_kwargs_refused (data : json) (ins : option PaperInsights) :
  refused data -> exists e, Paper_kwargs data ins = Raise e.
Proof.
  destruct data as [| | | | | |m]; try (intros _; eexists; reflexivity).
  cbn [refused Paper_kwargs]. intros [H|(k & K & H)].
  - rewrite H. eexists; reflexivity.
  - destruct (known paper_fields m); [|eexists; reflexivity].
    cbn [removelast paper_fields In] in K.
    repeat (destruct K as [<-|K];
            [rewrite H;
             repeat match goal with
                    | |- context [match dict_get m ?x with _ => _ end] =>
                        destruct (dict_get m x)
                    end; eexists; reflexivity|]).
    destruct K.
Qed.

Lemma load_body_refused (path : str) (d : dir) (text : str) (data : json) :
  read_text d path = Ok text -> loads text = Ok data -> refused data ->
  exists e, load_body path d = Raise e.
Proof.
  intros R L H. unfold load_body. rewrite R. cbn [bind]. rewrite L.
  cbn [bind].
  destruct (py_in (py "insights") data) as [[|]|e]; cbn [bind];
    try apply (Paper_kwargs_refused data None H);
    [|eexists; reflexivity].
  destruct (py_getitem data (py "insights")) as [v|e]; cbn [bind];
    [|eexists; reflexivity].
  destruct (truthy v); [|apply (Paper_kwargs_refused data None H)].
  destruct (PaperInsights_kwargs v) as [i|e]; cbn [bind];
    [apply (Paper_kwargs_refused data (Some i) H)|eexists; reflexivity].
Qed.

Lemma Paper_kwargs_fields (m : list (str * json)) (ins : option PaperInsights)
      (p : Paper) :
  Paper_kwargs (JObj m) ins = Ok p ->
  dict_get m (py "id") = Some (id p)
  /\ dict_get m (py "title") = Some (title p)
  /\ dict_get m (py "authors") = Some (authors p)
  /\ dict_get m (py "url") = Some (url p)
  /\ dict_get m (py "pdf_path") = Some (pdf_path p)
  /\ dict_get m (py "added_date") = Some (added_date p)
  /\ dict_get m (py "interests") = Some (interests p)
  /\ dict_get m (py "status") = Some (status p)
  /\ notes p = match dict_get m (py "notes") with
               | Some n => n
               | None => JStr []
               end.
Proof.
  cbn [Paper_kwargs]. destruct (known paper_fields m); [|discriminate].
  destruct (dict_get m (py "id")); [|discriminate].
  destruct (dict_get m (py "title")); [|discriminate].
  destruct (dict_get m (py "authors")); [|discriminate].
  destruct (dict_get m (py "url")); [|discriminate].
  destruct (dict_get m (py "pdf_path")); [|discriminate].
  destruct (dict_get m (py "added_date")); [|discriminate].
  destruct (dict_get m (py "interests")); [|discriminate].
  destruct (dict_get m (py "insights")); [|discriminate].
  destruct (dict_get m (py "status")); [|discriminate].
  intros [= <-]. cbn [id title authors url pdf_path added_date interests
                      status notes]. repeat split.
Qed.


End Loading.

(** X8.  A file whose JSON is not an object, or is an object with a key
    that is not a field of [Paper], or lacks one of the nine fields without a
    default, is read as no record: [get] returns [None]. *)
Theorem get_refuses_other_shapes (paper_id : str) (d : dir) (text : str)
        (data : json) :
  read_text d (_get_paper_path paper_id) = Ok text ->
  loads text = Ok data -> refused data ->
  get paper_id d = None.
Proof.
  intros R L H. unfold get.
  destruct (negb (exists_ d (_get_paper_path paper_id))); [reflexivity|].
  unfold _load_paper.
  now destruct (load_body_refused _ d text data R L H) as [e ->].
Qed.

Lemma get_refuses_other_shapes_witness :
  get (py "x") [(py "x.json", tpl "{'id': 'x', 'title': 't', 'year': 2023}")]
  = None.
Proof.
  apply (get_refuses_other_shapes (py "x")
           [(py "x.json", tpl "{'id': 'x', 'title': 't', 'year': 2023}")]
           (tpl "{'id': 'x', 'title': 't', 'year': 2023}")
           (JObj [(py "id", JStr (py "x")); (py "title", JStr (py "t"));
                  (py "year", JInt 2023)]));
    [reflexivity|reflexivity|].
  left. reflexivity.
Defined.

(** X9.  When [get] returns a record, the file at the location decodes to an
    object, and the record holds for [id], [title], [authors], [url],
    [pdf_path], [added_date], [interests] and [status] the values of those
    keys, unchanged and unchecked; [notes] is the value of its key, or the
    empty string when the file has no such key. *)
Theorem get_reads_fields (paper_id : str) (d : dir) (p : Paper) :
  get paper_id d = Some p ->
  exists text m,
    read_text d (_get_paper_path paper_id) = Ok text
    /\ loads text = Ok (JObj m)
    /\ dict_get m (py "id") = Some (id p)
    /\ dict_get m (py "title") = Some (title p)
    /\ dict_get m (py "authors") = Some (authors p)
    /\ dict_get m (py "url") = Some (url p)
    /\ dict_get m (py "pdf_path") = Some (pdf_path p)
    /\ dict_get m (py "added_date") = Some (added_date p)
    /\ dict_get m (py "interests") = Some (interests p)
    /\ dict_get m (py "status") = Some (status p)
    /\ notes p = match dict_get m (py "notes") with
                 | Some n => n
                 | None => JStr []
                 end.
Proof.
  unfold get. destruct (negb (exists_ d (_get_paper_path paper_id)));
    [discriminate|].
  unfold _load_paper, load_body.
  destruct (read_text d (_get_paper_path paper_id)) as [text|] eqn:R;
    [|discriminate].
  cbn [bind]. destruct (loads text) as [data|] eqn:L; [|discriminate].
  cbn [bind]. intros H. exists text.
  assert (K : exists ins, Paper_kwargs data ins = Ok p).
  { destruct (py_in (py "insights") data) as [[|]|]; cbn [bind] in H;
      try discriminate.
    - destruct (py_getitem data (py "insights")) as [v|]; cbn [bind] in H;
        [|discriminate].
      destruct (truthy v).
      + destruct (PaperInsights_kwargs v) as [i|]; cbn [bind] in H;
          [|discriminate].
        exists (Some i).
        destruct (Paper_kwargs data (Some i)); [congruence|discriminate].
      + exists None.
        destruct (Paper_kwargs data None); [congruence|discriminate].
    - exists None.
      destruct (Paper_kwargs data None); [congruence|discriminate]. }
  destruct K as [ins K].
  destruct data as [| | | | | |m]; try discriminate.
  exists m. split; [reflexivity|]. split; [exact L|].
  exact (Paper_kwargs_fields m ins p K).
Qed.

Lemma get_reads_fields_witness :
  exists text m,
    read_text (snd (add Samples.sample_paper []))
      (_get_paper_path (py "arxiv:2301.12345")) = Ok text
    /\ loads text = Ok (JObj m)
    /\ dict_get m (py "id") = Some (id Samples.sample_paper)
    /\ dict_get m (py "title") = Some (title Samples.sample_paper)
    /\ dict_get m (py "authors") = Some (authors Samples.sample_paper)
    /\ dict_get m (py "url") = Some (url Samples.sample_paper)
    /\ dict_get m (py "pdf_path") = Some (pdf_path Samples.sample_paper)
    /\ dict_get m (py "added_date") = Some (added_date Samples.sample_paper)
    /\ dict_get m (py "interests") = Some (interests Samples.sample_paper)
    /\ dict_get m (py "status") = Some (status Samples.sample_paper)
    /\ notes Samples.sample_paper
       = match dict_get m (py "notes") with
         | Some n => n
         | None => JStr []
         end.
Proof.
  apply (get_reads_fields (py "arxiv:2301.12345")
           (snd (add Samples.sample_paper [])) Samples.sample_paper).
  reflexivity.
Defined.

(** ** The commands of main.py that change a record *)

Section Commands.




End Commands.





(** ** Research interests *)

Section Interests.

Lemma load_save (i : ResearchInterests) (f : file) :
  well_typed_interests i = true -> load (save i f) = Some i.
Proof.
  destruct i as [a t c]. unfold well_typed_interests. cbn [areas topics
    arxiv_categories]. intros H.
  apply andb_true_iff in H as [H Hc]. apply andb_true_iff in H as [Ha Ht].
  unfold load, save. rewrite loads_dumps; [reflexivity|].
  unfold asdict_interests. cbn [areas topics arxiv_categories].
  cbn [plain map fst snd forallb].
  rewrite (is_str_list_plain _ Ha), (is_str_list_plain _ Ht),
    (is_str_list_plain _ Hc). reflexivity.
Qed.

Lemma is_str_list_app (l : list json) (x : str) :
  is_str_list (JArr l) = true -> is_str_list (JArr (l ++ [JStr x])) = true.
Proof.
  cbn [is_str_list]. rewrite forallb_app. intros ->. reflexivity.
Qed.

Lemma is_str_list_arr (v : json) :
  is_str_list v = true -> exists l, v = JArr l.
Proof. destruct v; try discriminate. intros _. now eexists. Qed.

Lemma is_str_list_remove (l : list json) (x : str) :
  is_str_list (JArr l) = true ->
  is_str_list (JArr (remove_first l x)) = true.
Proof.
  cbn [is_str_list]. induction l as [|y l IH]; [reflexivity|].
  cbn [forallb remove_first]. intros H. apply andb_true_iff in H as [Hy H].
  destruct y; try discriminate.
  destruct (str_eqb s x); [exact H|]. cbn [forallb is_str]. now apply IH.
Qed.

Lemma present_after_append (l : list json) (x : str) :
  existsb (is_text x) (l ++ [JStr x]) = true.
Proof.
  rewrite existsb_app. cbn [existsb is_text]. rewrite str_eqb_refl.
  now rewrite orb_true_r.
Qed.

Lemma remove_first_appended (l : list json) (x : str) :
  existsb (is_text x) l = false -> remove_first (l ++ [JStr x]) x = l.
Proof.
  induction l as [|y l IH]; cbn [app remove_first existsb].
  - intros _. now rewrite str_eqb_refl.
  - intros H. apply orb_false_iff in H as [Hy H].
    destruct y; cbn [is_text] in Hy; rewrite ?Hy; now rewrite (IH H).
Qed.

Lemma py_in_list (x : str) (l : list json) :
  py_in x (JArr l) = Ok (existsb (is_text x) l).
Proof. reflexivity. Qed.

Lemma py_remove_list (x : str) (l : list json) :
  existsb (is_text x) l = true ->
  py_remove (JArr l) x = Ok (JArr (remove_first l x)).
Proof. intros H. cbn [py_remove]. fold (is_text x). now rewrite H. Qed.

End Interests.

Ltac typed_interests i H :=
  let a := fresh "a" in let t := fresh "t" in let c := fresh "c" in
  let Ha := fresh "Ha" in let Ht := fresh "Ht" in let Hc := fresh "Hc" in
  destruct i as [a t c]; unfold well_typed_interests in H;
  cbn [areas topics arxiv_categories] in H;
  apply andb_true_iff in H as [H Hc]; apply andb_true_iff in H as [Ha Ht];
  let la := fresh "la" in let lt := fresh "lt" in let lc := fresh "lc" in
  destruct (is_str_list_arr _ Ha) as [la ->];
  destruct (is_str_list_arr _ Ht) as [lt ->];
  destruct (is_str_list_arr _ Hc) as [lc ->].




(** X13.  Interests whose three fields are lists of strings are read back
    as they were saved, whatever the file held before. *)
Theorem interests_save_then_load (i : ResearchInterests) (f : file) :
  well_typed_interests i = true -> load (save i f) = Some i.
Proof. apply load_save. Qed.

Lemma interests_save_then_load_witness :
  load (save (mkResearchInterests
                (JArr [JStr (py "deep learning"); JStr (py "signal processing")])
                (JArr [JStr (py "attention mechanisms"); JStr (py "MIMO")])
                (JArr [JStr (py "cs.LG"); JStr (py "eess.SP")])) None)
  = Some (mkResearchInterests
            (JArr [JStr (py "deep learning"); JStr (py "signal processing")])
            (JArr [JStr (py "attention mechanisms"); JStr (py "MIMO")])
            (JArr [JStr (py "cs.LG"); JStr (py "eess.SP")])).
Proof. apply interests_save_then_load. reflexivity. Defined.

(** X14.  When the interests file is absent, or does not read as
    interests, [add_area], [add_topic] and [add_category] start from empty
    interests: the file is written anew and holds the one item, and whatever
    an unreadable file held is lost. *)
Theorem add_interest_starts_afresh (x : str) (f : file) :
  load f = None ->
  (fst (add_area x f) = Ok tt
   /\ load (snd (add_area x f))
      = Some (mkResearchInterests (JArr [JStr x]) (JArr []) (JArr [])))
  /\ (fst (add_topic x f) = Ok tt
      /\ load (snd (add_topic x f))
         = Some (mkResearchInterests (JArr []) (JArr [JStr x]) (JArr [])))
  /\ (fst (add_category x f) = Ok tt
      /\ load (snd (add_category x f))
         = Some (mkResearchInterests (JArr []) (JArr []) (JArr [JStr x]))).
Proof.
  intros L. unfold add_area, add_topic, add_category, load_or_new.
  rewrite L. cbn [areas topics arxiv_categories py_in existsb py_append app
                  fst snd].
  repeat split; apply load_save; reflexivity.
Qed.

Lemma add_interest_starts_afresh_witness :
  load (snd (add_topic (py "MIMO") (Some (py "{ not json"))))
  = Some (mkResearchInterests (JArr []) (JArr [JStr (py "MIMO")]) (JArr [])).
Proof.
  apply (proj2 (proj1 (proj2 (add_interest_starts_afresh (py "MIMO")
                                (Some (py "{ not json")) eq_refl)))).
Defined.

Ltac remove_case L Ha Ht Hc x l :=
  rewrite L; cbn [areas topics arxiv_categories]; rewrite py_in_list;
  cbn [without_item];
  destruct (existsb (is_text x) l) eqn:E;
  [ rewrite (py_remove_list x l E); cbn [fst snd];
    split; [reflexivity|]; split; [|discriminate];
    apply load_save; unfold well_typed_interests;
    cbn [areas topics arxiv_categories];
    try rewrite (is_str_list_remove _ x Ha);
    try rewrite (is_str_list_remove _ x Ht);
    try rewrite (is_str_list_remove _ x Hc);
    rewrite ?Ha, ?Ht, ?Hc; reflexivity
  | cbn [fst snd]; split; [reflexivity|]; split; [|reflexivity];
    rewrite L; do 2 f_equal; f_equal;
    clear - E; induction l as [|y l IH]; [reflexivity|];
    cbn [existsb] in E; apply orb_false_iff in E as [Ey E];
    destruct y; cbn [remove_first is_text] in *; rewrite ?Ey;
    f_equal; now apply IH ].

(** X15.  [remove_area], [remove_topic] and [remove_category] do nothing
    when the file is absent or does not read as interests: no file is
    created.  On a file that loads as interests whose fields are lists of
    strings they succeed and leave the file loading as the same interests
    without the first occurrence of the item in its list; when the item is
    not in the list nothing is written. *)
Theorem remove_interest_removes_first (x : str) (f : file) :
  (load f = None ->
   remove_area x f = (Ok tt, f) /\ remove_topic x f = (Ok tt, f)
   /\ remove_category x f = (Ok tt, f))
  /\ (forall i,
        load f = Some i -> well_typed_interests i = true ->
        (fst (remove_area x f) = Ok tt
         /\ load (snd (remove_area x f))
            = Some (mkResearchInterests (without_item (areas i) x) (topics i)
                      (arxiv_categories i))
         /\ (py_in x (areas i) = Ok false -> snd (remove_area x f) = f))
        /\ (fst (remove_topic x f) = Ok tt
            /\ load (snd (remove_topic x f))
               = Some (mkResearchInterests (areas i)
                         (without_item (topics i) x) (arxiv_categories i))
            /\ (py_in x (topics i) = Ok false -> snd (remove_topic x f) = f))
        /\ (fst (remove_category x f) = Ok tt
            /\ load (snd (remove_category x f))
               = Some (mkResearchInterests (areas i) (topics i)
                         (without_item (arxiv_categories i) x))
            /\ (py_in x (arxiv_categories i) = Ok false ->
                snd (remove_category x f) = f))).
Proof.
  split.
  - intros L. unfold remove_area, remove_topic, remove_category.
    now rewrite L.
  - intros i L W. typed_interests i W. split; [|split].
    + unfold remove_area. remove_case L Ha Ht Hc x la.
    + unfold remove_topic. remove_case L Ha Ht Hc x lt.
    + unfold remove_category. remove_case L Ha Ht Hc x lc.
Qed.

Lemma remove_interest_removes_first_witness :
  remove_area (py "nonexistent") None = (Ok tt, None)
  /\ load (snd (remove_area (py "deep learning")
                  (save (mkResearchInterests
                           (JArr [JStr (py "deep learning");
                                  JStr (py "signal processing")])
                           (JArr []) (JArr [])) None)))
     = Some (mkResearchInterests (JArr [JStr (py "signal processing")])
               (JArr []) (JArr [])).
Proof.
  split.
  - apply (proj1 (remove_interest_removes_first (py "nonexistent") None)).
    reflexivity.
  - apply (proj1 (proj2 (proj1 (proj2 (remove_interest_removes_first
                                         (py "deep learning")
                                         (save (mkResearchInterests
                                                  (JArr [JStr (py "deep learning");
                                                         JStr (py "signal processing")])
                                                  (JArr []) (JArr [])) None))
                                  (mkResearchInterests
                                     (JArr [JStr (py "deep learning");
                                            JStr (py "signal processing")])
                                     (JArr []) (JArr []))
                                  eq_refl eq_refl)))).
Defined.

Ltac add_remove_case L Ha Ht Hc x l N :=
  unfold load_or_new; rewrite L; cbn [areas topics arxiv_categories] in *;
  rewrite py_in_list in *; injection N as N; rewrite N;
  cbn [py_append snd];
  rewrite load_save
    by (unfold well_typed_interests; cbn [areas topics arxiv_categories];
        try rewrite (is_str_list_app _ x Ha);
        try rewrite (is_str_list_app _ x Ht);
        try rewrite (is_str_list_app _ x Hc);
        rewrite ?Ha, ?Ht, ?Hc; reflexivity);
  cbn [areas topics arxiv_categories];
  rewrite py_in_list, present_after_append;
  rewrite (py_remove_list x _ (present_after_append l x));
  cbn [snd]; rewrite (remove_first_appended l x N);
  apply load_save; unfold well_typed_interests;
  cbn [areas topics arxiv_categories]; rewrite Ha, Ht, Hc; reflexivity.

(** X16.  Adding an item that was not there and removing it again leaves
    the file loading as the interests it held before, the lists in their
    order. *)
Theorem add_then_remove_interest (x : str) (f : file) (i : ResearchInterests) :
  load f = Some i -> well_typed_interests i = true ->
  (py_in x (areas i) = Ok false ->
   load (snd (remove_area x (snd (add_area x f)))) = Some i)
  /\ (py_in x (topics i) = Ok false ->
      load (snd (remove_topic x (snd (add_topic x f)))) = Some i)
  /\ (py_in x (arxiv_categories i) = Ok false ->
      load (snd (remove_category x (snd (add_category x f)))) = Some i).
Proof.
  intros L W. typed_interests i W. split; [|split]; intros N.
  - unfold add_area, remove_area. add_remove_case L Ha Ht Hc x la N.
  - unfold add_topic, remove_topic. add_remove_case L Ha Ht Hc x lt N.
  - unfold add_category, remove_category. add_remove_case L Ha Ht Hc x lc N.
Qed.

Lemma add_then_remove_interest_witness :
  load (snd (remove_area (py "MIMO")
               (snd (add_area (py "MIMO")
                       (snd (add_area (py "deep learning") None))))))
  = Some (mkResearchInterests (JArr [JStr (py "deep learning")])
            (JArr []) (JArr [])).
Proof.
  apply (proj1 (add_then_remove_interest (py "MIMO")
                  (snd (add_area (py "deep learning") None))
                  (mkResearchInterests (JArr [JStr (py "deep learning")])
                     (JArr []) (JArr []))
                  eq_refl eq_refl)).
  reflexivity.
Defined.

(** ** Responses with text around the fence, and fences left open *)

Section FencesMore.

Lemma find_from_backtick_free (sub pre rest : str) :
  startswith sub fence = true -> backtick_free pre = true ->
  forall i, find_from (pre ++ rest) sub i = find_from rest sub (i + length pre).
Proof.
  intros Hs. induction pre as [|c pre IH]; intros Hp i.
  - cbn [app length]. f_equal. lia.
  - cbn [backtick_free forallb] in Hp. apply andb_true_iff in Hp as [Hc Hp].
    apply negb_true_iff in Hc.
    cbn [app length]. rewrite find_from_cons.
    rewrite (startswith_sub_fence sub _ Hs (startswith_fence_head c _ Hc)).
    rewrite (IH Hp). f_equal. lia.
Qed.

Lemma find_from_here (sub rest : str) (i : nat) :
  find_from (sub ++ rest) sub i = Some i.
Proof.
  pose proof (startswith_app sub rest) as H.
  destruct (sub ++ rest); cbn [find_from]; now rewrite H.
Qed.

Lemma find_from_none_shift (s sub : str) (i : nat) :
  find_from s sub 0 = None -> find_from s sub i = None.
Proof. intros H. now rewrite find_from_shift, H. Qed.

Lemma skipn_app_exact {A : Type} (a b : list A) : skipn (length a) (a ++ b) = b.
Proof. now rewrite skipn_app, skipn_all, Nat.sub_diag. Qed.

Lemma firstn_app_exact {A : Type} (a b : list A) :
  firstn (length a) (a ++ b) = a.
Proof.
  rewrite firstn_app, firstn_all, Nat.sub_diag. cbn [firstn].
  apply app_nil_r.
Qed.

Lemma json_str_in_prose (pre w1 p w2 post : str) :
  backtick_free pre = true ->
  whitespace w1 = true -> whitespace w2 = true -> w2 <> [] ->
  contains fence p = false ->
  json_str (pre ++ fenced_json w1 p w2 ++ post) = strip p.
Proof.
  intros Hpre H1 H2 N Hp. unfold json_str, fenced_json.
  rewrite <- !app_assoc. rewrite contains_app.
  set (body := w1 ++ p ++ w2).
  replace (w1 ++ p ++ w2 ++ fence ++ post) with (body ++ fence ++ post)
    by (unfold body; now rewrite <- !app_assoc).
  set (r := pre ++ fence_json ++ body ++ fence ++ post).
  assert (F1 : find r fence_json 0 = Z.of_nat (length pre)).
  { change 0%Z with (Z.of_nat 0). rewrite find_at by lia. cbn [skipn].
    unfold r. rewrite (find_from_backtick_free fence_json pre _ eq_refl Hpre).
    now rewrite find_from_here. }
  rewrite F1.
  replace (Z.of_nat (length pre) + 7)%Z
    with (Z.of_nat (length (pre ++ fence_json)))
    by (rewrite length_app; cbn [length fence_json py list_ascii_of_string];
        lia).
  assert (E : r = (pre ++ fence_json) ++ body ++ fence ++ post)
    by (unfold r; now rewrite <- app_assoc).
  assert (F2 : find r fence (Z.of_nat (length (pre ++ fence_json)))
               = Z.of_nat (length (pre ++ fence_json) + length body)).
  { rewrite find_at by (rewrite E, !length_app; lia).
    rewrite E, skipn_app_exact. unfold body.
    destruct w2 as [|c w2]; [congruence|].
    cbn [whitespace forallb] in H2. apply andb_true_iff in H2 as [Hc H2].
    rewrite <- !app_assoc.
    rewrite (find_from_ws fence w1 _ eq_refl H1). cbn [app].
    rewrite (find_from_skip fence p c _ eq_refl (isspace_not_backtick c Hc)
               (no_fence p Hp)).
    rewrite (find_from_ws fence w2 _ eq_refl H2).
    rewrite find_from_here. f_equal. rewrite !length_app. cbn [length]. lia. }
  rewrite F2.
  rewrite slice_at by (rewrite ?E, ?length_app; lia).
  rewrite E at 1. rewrite skipn_app_exact.
  replace (length (pre ++ fence_json) + length body
           - length (pre ++ fence_json)) with (length body) by lia.
  rewrite firstn_app_exact. unfold body. now apply strip_ws.
Qed.

Lemma slice_to_last (a p : str) :
  slice (a ++ p) (Z.of_nat (length a)) (-1) = removelast p.
Proof.
  unfold slice, clamp.
  replace (Z.of_nat (length a) <? 0)%Z with false
    by (symmetry; apply Z.ltb_ge; lia).
  cbn [Z.ltb Z.compare].
  rewrite Nat2Z.id, Nat.min_l by (rewrite length_app; lia).
  rewrite skipn_app_exact, length_app.
  replace (Z.to_nat (Z.max 0 (-1 + Z.of_nat (length a + length p)))
           - length a) with (Nat.pred (length p)) by lia.
  symmetry. apply removelast_firstn_len.
Qed.

Lemma find_missing (a p : str) :
  find_from p fence 0 = None ->
  find (a ++ p) fence (Z.of_nat (length a)) = (-1)%Z.
Proof.
  intros H. rewrite find_at by (rewrite length_app; lia).
  now rewrite skipn_app_exact, (find_from_none_shift _ _ _ H).
Qed.

End FencesMore.

(** X17.  A response that holds one JSON-labelled block, after text without
    backticks and before any text at all, is parsed as the payload of the
    block alone, when the payload holds no fence marker and white space
    separates it from the closing fence. *)
Theorem parse_response_ignores_prose (pre w1 payload w2 post : str) :
  backtick_free pre = true ->
  whitespace w1 = true -> whitespace w2 = true -> w2 <> [] ->
  contains fence payload = false ->
  json_str (pre ++ fenced_json w1 payload w2 ++ post) = strip payload
  /\ _parse_response (pre ++ fenced_json w1 payload w2 ++ post)
     = _parse_response payload.
Proof.
  intros Hpre H1 H2 N Hp.
  pose proof (json_str_in_prose pre w1 payload w2 post Hpre H1 H2 N Hp) as E.
  split; [exact E|]. rewrite !parse_response_text.
  now rewrite E, (json_str_bare payload Hp).
Qed.

Lemma parse_response_ignores_prose_witness :
  _parse_response (py "Here is the analysis: "
                   ++ fenced_json [LF] Samples.third_value_response [LF]
                   ++ py " Hope this ```helps```!")
  = _parse_response Samples.third_value_response.
Proof.
  apply (parse_response_ignores_prose (py "Here is the analysis: ") [LF]
           Samples.third_value_response [LF] (py " Hope this ```helps```!"));
    try reflexivity.
  discriminate.
Defined.

(** X18.  A JSON-labelled fence that is never closed costs the payload
    its last character: when no fence marker follows the opening one, the
    JSON text taken from the response is what follows the opening marker
    without its last character, stripped; so a payload that ends with the
    closing brace of its object is not parsed. *)
Theorem unclosed_fence_drops_last_character (payload : str) :
  contains fence payload = false ->
  json_str (fence_json ++ payload) = strip (removelast payload)
  /\ _parse_response (fence_json ++ payload)
     = match insights_of_text (strip (removelast payload)) with
       | Ok i => Ok i
       | Raise e => Raise (parse_failure e)
       end.
Proof.
  intros Hp. pose proof (no_fence payload Hp) as Hn.
  assert (E : json_str (fence_json ++ payload) = strip (removelast payload)).
  { unfold json_str. rewrite contains_prefix, find_prefix.
    change (0 + 7)%Z with (Z.of_nat (length fence_json)).
    now rewrite (find_missing fence_json payload Hn), slice_to_last. }
  split; [exact E|]. now rewrite parse_response_text, E.
Qed.

Lemma unclosed_fence_drops_last_character_witness :
  _parse_response (fence_json ++ LF :: Samples.third_value_response)
  = Raise (parse_failure JSONDecodeError).
Proof.
  rewrite (proj2 (unclosed_fence_drops_last_character
                    (LF :: Samples.third_value_response) eq_refl)).
  reflexivity.
Defined.

Section Causes.

Lemma insights_of_text_first_missing (text : str) (m : list (str * json))
      (k : str) :
  loads text = Ok (JObj m) -> first_missing m = Some k ->
  insights_of_text text = Raise (KeyError k).
Proof.
  intros L. unfold insights_of_text, first_missing, insights_fields.
  rewrite L. cbn [bind List.find py_getitem]. unfold dict_has.
  repeat (match goal with
          | |- context [dict_get m ?x] =>
              destruct (dict_get m x); cbn [negb bind];
              [|now intros [= <-]]
          end).
  discriminate.
Qed.

Lemma insights_of_text_not_object (text : str) (v : json) :
  loads text = Ok v -> (forall m, v <> JObj m) ->
  insights_of_text text = Raise TypeError.
Proof.
  intros L N. unfold insights_of_text. rewrite L. cbn [bind].
  destruct v; try reflexivity. now destruct (N members).
Qed.

End Causes.

(** X19.  When the JSON text of a response decodes to something that is not
    an object (a list, a string, a number), [_parse_response] raises the
    parsing failure that holds a [TypeError]; when it decodes to an object
    that lacks some of the seven keys, the failure holds the [KeyError] of
    the first of them, in the order problem, method, key_results,
    contributions, related_work, future_directions, classification. *)
Theorem parse_response_reports_cause (response : str) (v : json) :
  loads (json_str response) = Ok v ->
  ((forall m, v <> JObj m) ->
   _parse_response response = Raise (parse_failure TypeError))
  /\ (forall m k,
        v = JObj m -> first_missing m = Some k ->
        _parse_response response = Raise (parse_failure (KeyError k))).
Proof.
  intros L. rewrite parse_response_text. split.
  - intros N. now rewrite (insights_of_text_not_object _ v L N).
  - intros m k -> F. now rewrite (insights_of_text_first_missing _ m k L F).
Qed.

Lemma parse_response_reports_cause_witness :
  _parse_response (py "[1, 2]") = Raise (parse_failure TypeError)
  /\ _parse_response (tpl "{'problem': 'p', 'key_results': 'k'}")
     = Raise (parse_failure (KeyError (py "method"))).
Proof.
  split.
  - apply (proj1 (parse_response_reports_cause (py "[1, 2]")
                    (JArr [JInt 1; JInt 2]) eq_refl)).
    discriminate.
  - apply (proj2 (parse_response_reports_cause
                    (tpl "{'problem': 'p', 'key_results': 'k'}")
                    (JObj [(py "problem", JStr (py "p"));
                           (py "key_results", JStr (py "k"))]) eq_refl)
             [(py "problem", JStr (py "p")); (py "key_results", JStr (py "k"))]
             (py "method")); reflexivity.
Defined.

(** X20.  [extract] builds the prompt from the title and the text, in that
    order, and returns the insights parsed from the response to it.  Every
    failure is raised as one extraction failure that holds the cause: the
    exception of the generation call, or, when the response does not parse,
    the parsing failure, itself holding its cause. *)
Theorem extract_wraps_every_failure (generate : str -> result str)
        (paper_text paper_title : str) :
  let prompt := _build_extraction_prompt paper_title paper_text in
  (forall e, generate prompt = Raise e ->
     extract generate paper_text paper_title = Raise (extraction_failure e))
  /\ (forall response e,
        generate prompt = Ok response ->
        insights_of_text (json_str response) = Raise e ->
        extract generate paper_text paper_title
        = Raise (extraction_failure (parse_failure e)))
  /\ (forall i,
        extract generate paper_text paper_title = Ok i <->
        exists response,
          generate prompt = Ok response /\ _parse_response response = Ok i).
Proof.
  intros prompt. unfold extract. fold prompt. repeat split.
  - intros e ->. reflexivity.
  - intros response e -> H. cbn [bind]. now rewrite parse_response_text, H.
  - intros H. destruct (generate prompt) as [response|]; [|discriminate].
    cbn [bind] in H. exists response. split; [reflexivity|].
    destruct (_parse_response response); [congruence|discriminate].
  - intros (response & -> & H). cbn [bind]. now rewrite H.
Qed.

Lemma extract_wraps_every_failure_witness :
  extract (fun _ => Ok (py "This is not JSON")) (py "text") (py "Title")
  = Raise (extraction_failure (parse_failure JSONDecodeError))
  /\ extract (fun _ => Raise TypeError) (py "text") (py "Title")
     = Raise (extraction_failure TypeError).
Proof.
  split.
  - apply (proj1 (proj2 (extract_wraps_every_failure
                           (fun _ => Ok (py "This is not JSON"))
                           (py "text") (py "Title")))
             (py "This is not JSON") JSONDecodeError); reflexivity.
  - apply (proj1 (extract_wraps_every_failure (fun _ => Raise TypeError)
                    (py "text") (py "Title")) TypeError).
    reflexivity.
Defined.

(** X21.  The length of the prompt is 973, the length of the template, plus
    the length of the title, plus the length of the text when it is at most
    8000, and plus 8026 otherwise: never more than 8999 beyond the title.
    The title stands in the prompt whole. *)
Theorem prompt_length (title text : str) :
  (Z.of_nat (length (_build_extraction_prompt title text))
   = 973 + Z.of_nat (length title)
     + (if max_text_length <? Z.of_nat (length text)
        then 8026 else Z.of_nat (length text)))%Z
  /\ (Z.of_nat (length (_build_extraction_prompt title text))
      <= Z.of_nat (length title) + 8999)%Z
  /\ contains title (_build_extraction_prompt title text) = true.
Proof.
  assert (L : (Z.of_nat (length (_build_extraction_prompt title text))
               = 973 + Z.of_nat (length title)
                 + (if max_text_length <? Z.of_nat (length text)
                    then 8026 else Z.of_nat (length text)))%Z).
  { unfold _build_extraction_prompt. rewrite truncated_text_spec.
    rewrite !length_app, length_firstn.
    change (length prompt_head) with 61.
    change (length prompt_mid) with 14.
    change (length prompt_tail) with 898.
    destruct (max_text_length <? Z.of_nat (length text))%Z eqn:E.
    - apply Z.ltb_lt in E. rewrite truncation_marker_length.
      unfold max_text_length in *. lia.
    - apply Z.ltb_ge in E. cbn [length]. unfold max_text_length in *. lia. }
  split; [exact L|]. split.
  - rewrite L. destruct (max_text_length <? Z.of_nat (length text))%Z eqn:E.
    + lia.
    + apply Z.ltb_ge in E. unfold max_text_length in E. lia.
  - unfold _build_extraction_prompt. apply contains_app.
Qed.

(** ** The query and the ids of discovery *)

Section Discovery.

Lemma split_no_sep (s : str) (sep : ascii) (piece : str) :
  In piece (split s sep) -> ~ In sep piece.
Proof.
  revert piece. induction s as [|c s IH]; intros piece H.
  - cbn [split In] in H. destruct H as [<-|[]]. intros [].
  - cbn [split] in H. destruct (Ascii.eqb c sep) eqn:E.
    + destruct H as [<-|H]; [intros []|now apply IH].
    + destruct (split s sep) as [|h t] eqn:S.
      * destruct H as [<-|[]]. intros [->|[]]. now rewrite Ascii.eqb_refl in E.
      * destruct H as [<-|H].
        -- intros [->|F]; [now rewrite Ascii.eqb_refl in E|].
           apply (IH h); [now left|exact F].
        -- apply IH. now right.
Qed.

Lemma split_nonempty (s : str) (sep : ascii) : split s sep <> [].
Proof.
  destruct s as [|c s]; [discriminate|]. cbn [split].
  destruct (Ascii.eqb c sep); [discriminate|].
  destruct (split s sep); discriminate.
Qed.

Lemma last_in {A : Type} (l : list A) (d : A) : l <> [] -> In (last l d) l.
Proof.
  induction l as [|x l IH]; [congruence|]. intros _.
  destruct l as [|y l]; [now left|]. right. apply IH. discriminate.
Qed.

Lemma replace_from_skip (a x old new : str) :
  replace_from (a ++ x) old new (length a) = replace_from x old new 0.
Proof.
  induction a as [|c a IH]; [reflexivity|]. exact IH.
Qed.

Lemma replace_from_absent (x old new : str) :
  find_from x old 0 = None -> replace_from x old new 0 = x.
Proof.
  induction x as [|c x IH]; [reflexivity|]. intros H.
  destruct (find_from_none_tail _ _ _ H) as [S T].
  cbn [replace_from]. rewrite S. now rewrite (IH T).
Qed.

Lemma clean_id_prefixed (x : str) :
  clean_id (py "arxiv:" ++ x) = clean_id x.
Proof.
  unfold clean_id, replace_str. cbn [py list_ascii_of_string].
  change ([ "a"; "r"; "x"; "i"; "v"; ":"]%char ++ x)
    with ("a"%char :: [ "r"; "x"; "i"; "v"; ":"]%char ++ x).
  cbn [replace_from]. 
  change ("a"%char :: [ "r"; "x"; "i"; "v"; ":"]%char ++ x)
    with ([ "a"; "r"; "x"; "i"; "v"; ":"]%char ++ x).
  rewrite startswith_app. cbn [length Nat.sub app].
  exact (replace_from_skip [ "r"; "x"; "i"; "v"; ":"]%char x _ _).
Qed.

(** The last piece of a split is the end of the string. *)
Lemma split_last_suffix (s : str) (sep : ascii) :
  exists pre,
    s = pre ++ last (split s sep) []
    /\ (length (split s sep) = 1 -> pre = []).
Proof.
  induction s as [|c s (pre & E & One)]; [now exists []|].
  pose proof (split_nonempty s sep) as N. cbn [split].
  destruct (Ascii.eqb c sep).
  - exists (c :: pre). split.
    + destruct (split s sep) as [|h t]; [congruence|].
      change (last ([] :: h :: t) []) with (last (h :: t) (@nil ascii)).
      cbn [app]. now rewrite <- E.
    + destruct (split s sep); [congruence|discriminate].
  - destruct (split s sep) as [|h [|h' t]]; [congruence| |].
    + exists []. cbn [last app] in *. rewrite (One eq_refl) in E.
      split; [now rewrite E|reflexivity].
    + exists (c :: pre). split; [|discriminate].
      change (last ((c :: h) :: h' :: t) [])
        with (last (h :: h' :: t) (@nil ascii)).
      cbn [app]. now rewrite <- E.
Qed.

End Discovery.

(** X22.  The query is "all:*" exactly when the interests hold no
    category, no topic and no area; and the areas count only when there is
    no topic: with a topic, the query is the same whatever the areas. *)
Theorem build_query_prefers_topics (arxiv_categories topics areas : list str) :
  (_build_query arxiv_categories topics areas = py "all:*"
   <-> arxiv_categories = [] /\ topics = [] /\ areas = [])
  /\ (topics <> [] ->
      forall areas',
        _build_query arxiv_categories topics areas
        = _build_query arxiv_categories topics areas').
Proof.
  split.
  - split.
    + destruct arxiv_categories as [|c cs], topics as [|t ts],
        areas as [|a as_]; intros H; try (now repeat split);
        exfalso; revert H; unfold _build_query;
        cbn [app py list_ascii_of_string join]; 
        repeat match goal with
               | |- context [join ?s (?x :: ?l)] => destruct l
               end; cbn [join app]; discriminate.
    + intros (-> & -> & ->). reflexivity.
  - intros N areas'. destruct topics; [congruence|reflexivity].
Qed.

Lemma build_query_prefers_topics_witness :
  _build_query [py "cs.LG"] [py "attention"] [py "deep learning"]
  = _build_query [py "cs.LG"] [py "attention"] [].
Proof.
  apply (proj2 (build_query_prefers_topics [py "cs.LG"] [py "attention"]
                  [py "deep learning"])).
  discriminate.
Defined.

(** X23.  The id of a candidate is "arxiv:" followed by the part of the
    entry id after its last slash, which holds no slash.  Cleaning an id
    takes a leading "arxiv:" away, so that an id with the prefix and the same
    id without it are cleaned to the same text; and a candidate's id is
    cleaned to the segment it was made from, when the segment does not itself
    hold "arxiv:". *)
Theorem candidate_id_cleans_to_segment (entry_id : str) :
  candidate_id entry_id = py "arxiv:" ++ last_segment entry_id
  /\ ~ In "/"%char (last_segment entry_id)
  /\ endswith entry_id (last_segment entry_id) = true
  /\ (forall arxiv_id, clean_id (py "arxiv:" ++ arxiv_id) = clean_id arxiv_id)
  /\ (contains (py "arxiv:") (last_segment entry_id) = false ->
      clean_id (candidate_id entry_id) = last_segment entry_id).
Proof.
  unfold last_segment. split; [reflexivity|]. split; [|split; [|split]].
  - apply split_no_sep with (s := entry_id).
    apply last_in, split_nonempty.
  - destruct (split_last_suffix entry_id "/"%char) as (pre & E & _).
    rewrite E at 1. apply endswith_app.
  - apply clean_id_prefixed.
  - intros H. unfold candidate_id. rewrite clean_id_prefixed.
    unfold clean_id, replace_str. cbn [py list_ascii_of_string].
    apply replace_from_absent. unfold contains in H.
    now destruct (find_from _ _ 0).
Qed.

Lemma candidate_id_cleans_to_segment_witness :
  clean_id (candidate_id (py "http://arxiv.org/abs/2301.12345v1"))
  = py "2301.12345v1".
Proof.
  apply (proj2 (proj2 (proj2 (proj2 (candidate_id_cleans_to_segment
                                       (py "http://arxiv.org/abs/2301.12345v1")))))).
  reflexivity.
Defined.

(** ** Text taken from a PDF *)

Section Ingestion.

Lemma collect_texts (texts : list str) (acc : list str) :
  collect (map Ok texts) acc = Ok (acc ++ filter nonempty texts).
Proof.
  revert acc. induction texts as [|t texts IH]; intros acc.
  - cbn [map collect filter]. now rewrite app_nil_r.
  - cbn [map collect bind filter]. destruct t as [|c t]; cbn [nonempty].
    + apply IH.
    + rewrite IH. now rewrite <- app_assoc.
Qed.

Lemma collect_ok (pages : list (result str)) (acc parts : list str) :
  collect pages acc = Ok parts ->
  exists texts, pages = map Ok texts /\ parts = acc ++ filter nonempty texts.
Proof.
  revert acc. induction pages as [|p pages IH]; intros acc H.
  - exists []. cbn [collect] in H. injection H as <-.
    now rewrite app_nil_r.
  - cbn [collect] in H. destruct p as [t|e]; [|discriminate].
    cbn [bind] in H. destruct t as [|c t].
    + destruct (IH _ H) as (texts & -> & ->). now exists ([] :: texts).
    + destruct (IH _ H) as (texts & -> & ->). exists ((c :: t) :: texts).
      cbn [map filter nonempty]. now rewrite <- app_assoc.
Qed.

End Ingestion.

(** X24.  [_extract_text] returns a text only when the reader opens and
    every page gives its text: the text is then the non-empty page texts
    joined by blank lines, and it is not blank.  Every failure, whether of
    the reader or of a page, or a blank result, is raised as one "Failed to
    extract text" error that holds the cause, and the blank result holds "No
    text extracted from PDF". *)
Theorem extract_text_joins_pages (reader : result (list (result str))) :
  (forall text,
     _extract_text reader = Ok text ->
     exists texts,
       reader = Ok (map Ok texts)
       /\ text = join [LF; LF] (filter nonempty texts)
       /\ strip text <> [])
  /\ (forall e,
        _extract_text reader = Raise e ->
        exists cause, e = extract_failure cause)
  /\ (forall texts,
        reader = Ok (map Ok texts) ->
        strip (join [LF; LF] (filter nonempty texts)) = [] ->
        _extract_text reader
        = Raise (extract_failure
                   (ValueError (py "No text extracted from PDF")))).
Proof.
  unfold _extract_text. repeat split.
  - intros text H. destruct reader as [pages|]; [|discriminate].
    cbn [bind] in H.
    destruct (collect pages []) as [parts|] eqn:C; [|discriminate].
    cbn [bind] in H. destruct (collect_ok _ _ _ C) as (texts & -> & ->).
    exists texts. cbn [app] in *.
    destruct (strip (join [LF; LF] (filter nonempty texts))) eqn:S;
      [discriminate|].
    injection H as <-. repeat split. now rewrite S.
  - intros e H.
    destruct (pages <- reader;; _) as [t|cause]; [discriminate|].
    injection H as <-. now exists cause.
  - intros texts -> S. cbn [bind]. rewrite collect_texts. cbn [bind app].
    now rewrite S.
Qed.

Lemma extract_text_joins_pages_witness :
  _extract_text (Ok [Ok []; Ok (py "  ")])
  = Raise (extract_failure (ValueError (py "No text extracted from PDF"))).
Proof.
  apply (proj2 (proj2 (extract_text_joins_pages (Ok [Ok []; Ok (py "  ")])))
           [[]; py "  "]); reflexivity.
Defined.

(** ** Lists typed at a prompt *)

Section Stripping.

Lemma lstrip_idempotent (s : str) : lstrip (lstrip s) = lstrip s.
Proof.
  induction s as [|c s IH]; [reflexivity|]. cbn [lstrip].
  destruct (isspace c) eqn:E; [exact IH|]. cbn [lstrip]. now rewrite E.
Qed.

Lemma lstrip_snoc (u : str) (c : ascii) :
  isspace c = false -> exists v, lstrip (u ++ [c]) = v ++ [c].
Proof.
  intros H. induction u as [|x u (v & IH)]; cbn [app lstrip].
  - rewrite H. now exists [].
  - destruct (isspace x); [now exists v|]. now exists (x :: u).
Qed.

Lemma rstrip_cons (c : ascii) (s : str) :
  isspace c = false -> exists z, rstrip (c :: s) = c :: z.
Proof.
  intros H. unfold rstrip. cbn [rev].
  destruct (lstrip_snoc (rev s) c H) as (v & ->).
  rewrite rev_app_distr. cbn [rev app]. now exists (rev v).
Qed.

Lemma strip_idempotent (s : str) : strip (strip s) = strip s.
Proof.
  unfold strip.
  assert (L : lstrip (rstrip (lstrip s)) = rstrip (lstrip s)).
  { destruct (lstrip s) as [|c y] eqn:E; [reflexivity|].
    assert (Hc : isspace c = false).
    { clear - E. induction s as [|x s IH]; [discriminate|].
      cbn [lstrip] in E. destruct (isspace x) eqn:X; [now apply IH|].
      now injection E as <- _. }
    destruct (rstrip_cons c y Hc) as (z & ->). cbn [lstrip]. now rewrite Hc. }
  rewrite L. unfold rstrip at 1 2. rewrite rev_involutive.
  now rewrite lstrip_idempotent.
Qed.

Lemma lstrip_incl (s : str) (x : ascii) : In x (lstrip s) -> In x s.
Proof.
  induction s as [|c s IH]; [easy|]. cbn [lstrip].
  destruct (isspace c); [|easy]. intros H. right. now apply IH.
Qed.

Lemma strip_incl (s : str) (x : ascii) : In x (strip s) -> In x s.
Proof.
  unfold strip, rstrip. intros H. apply in_rev in H.
  apply lstrip_incl in H. apply in_rev in H. now apply lstrip_incl.
Qed.

End Stripping.

(** X25.  The list read from a comma-separated answer holds only items that
    are not empty, that have no white space at either end, and that hold no
    comma; and it holds, stripped, every piece between commas that is not
    blank. *)
Theorem comma_separated_items (input : str) :
  (forall item,
     In item (Cli.comma_separated input) ->
     item <> [] /\ strip item = item /\ ~ In ","%char item)
  /\ (forall piece,
        In piece (split input ","%char) -> strip piece <> [] ->
        In (strip piece) (Cli.comma_separated input)).
Proof.
  unfold Cli.comma_separated. split.
  - intros item H. apply in_map_iff in H as (piece & <- & H).
    apply filter_In in H as [H N]. repeat split.
    + intros E. now rewrite E in N.
    + apply strip_idempotent.
    + intros F. apply strip_incl in F. revert F.
      now apply split_no_sep with (s := input).
  - intros piece H N. apply in_map. apply filter_In. split; [exact H|].
    destruct (strip piece); [congruence|reflexivity].
Qed.

Lemma comma_separated_items_witness :
  In (py "deep learning")
    (Cli.comma_separated (py " deep learning , ,x,  ")).
Proof.
  apply (proj2 (comma_separated_items (py " deep learning , ,x,  "))
           (py " deep learning ")).
  - left. reflexivity.
  - discriminate.
Defined.
